(** * booking_scraper: a shallow embedding of the discovery pipeline

    The development follows [booking_scraper/scraper.py] and
    [booking_scraper/notifications/pushover.py]:

    - the parsed page is a tree of [PageElement]s, queried with the
      BeautifulSoup operations the scraper uses ([find_all], [find],
      [select], [text], subscripting);
    - [get_hotelitems_from_soup] is an asynchronous generator: it is
      modelled by the trace it unfolds to, a sequence of yields that ends
      normally or by raising;
    - the [DataStore] is a dictionary mutated in place, so every operation
      that touches it returns the store it leaves behind, also when it
      raises;
    - the regular expression engine and the network are parameters of the
      pipeline, and so are the transport of the notifier and the scheduler
      that decides which requests still go out once one has failed;
    - the file system maps a path to what [json.load] reads there.

    Python [str] values are [string]s whose characters stand for the code
    points below 256; [int] values are [Z]; [dict]s with [str] keys are
    [gmap string _] (iteration order, which only fixes the layout of the
    JSON text written by [close], is not modelled). *)

From stdpp Require Import gmap strings list fin_maps.
From Stdlib Require Import Ascii ZArith DecimalString DecimalNat Permutation.

Open Scope Z_scope.

(** ** Exceptions and outcomes *)

(** The exception classes the modelled code can raise. *)
Inductive exn : Set :=
| AttributeError
| TypeError
| KeyError
| IndexError
| ValueError
| re_error
| JSONDecodeError
| OSError
| ClientError.

(** What a call produces: a value, or a raised exception. *)
Inductive outcome (A : Type) : Type :=
| Return (a : A)
| Raise (e : exn).
Arguments Return {A} a.
Arguments Raise {A} e.

#[global] Instance outcome_ret : MRet outcome := fun A a => Return a.

#[global] Instance outcome_bind : MBind outcome := fun A B k m =>
  match m with
  | Return a => k a
  | Raise e => Raise e
  end.

(** [or_raise o e]: the value of [o], raising [e] when there is none
    (attribute access or subscripting of [None], a missing key, ...). *)
Definition or_raise {A : Type} (o : option A) (e : exn) : outcome A :=
  match o with
  | Some a => Return a
  | None => Raise e
  end.

(** ** Strings *)

(** [str.isspace] on the code points below 256. *)
Definition isspace (c : Ascii.ascii) : bool :=
  let n := Ascii.N_of_ascii c in
  ((9 <=? n) && (n <=? 13) || (28 <=? n) && (n <=? 32)
   || (n =? 133) || (n =? 160))%N.

Fixpoint lstrip (s : string) : string :=
  match s with
  | EmptyString => EmptyString
  | String c s' => if isspace c then lstrip s' else s
  end.

Fixpoint str_rev_onto (s acc : string) : string :=
  match s with
  | EmptyString => acc
  | String c s' => str_rev_onto s' (String c acc)
  end.

Definition str_rev (s : string) : string := str_rev_onto s EmptyString.

Definition rstrip (s : string) : string := str_rev (lstrip (str_rev s)).

(** [s.strip()] *)
Definition strip (s : string) : string := rstrip (lstrip s).

(** [s.replace("\xa0", " ")] *)
Fixpoint replace_nbsp (s : string) : string :=
  match s with
  | EmptyString => EmptyString
  | String c s' =>
      String (if (Ascii.N_of_ascii c =? 160)%N then " "%char else c) (replace_nbsp s')
  end.

(** [str(n)] for a length. *)
Definition str_of_nat (n : nat) : string :=
  NilEmpty.string_of_uint (Nat.to_uint n).

(** ** Dataclasses *)

Module HotelItem.
Record t : Set := mk { url : string; title : string; price : string }.
End HotelItem.
Abbreviation HotelItem := HotelItem.t.

Module SearchConfig.
Record t : Set := mk { name : string; url : string; recursive : bool }.
End SearchConfig.
Abbreviation SearchConfig := SearchConfig.t.

Module FilterConfig.
Record t : Set := mk { exclude_patterns : list string }.
End FilterConfig.
Abbreviation FilterConfig := FilterConfig.t.

Module Result.
Record t : Set := mk {
  search_config : SearchConfig;
  num_already_in_datastore : Z;
  num_excluded : Z;
  hotelitems : list HotelItem
}.
End Result.
Abbreviation Result := Result.t.

(** [Result(search_config)]: the counters default to 0, the list to []. *)
Definition Result_init (search_config : SearchConfig) : Result :=
  Result.mk search_config 0 0 [].

#[global] Instance HotelItem_eq_dec : EqDecision HotelItem.
Proof. solve_decision. Defined.

(** ** The parsed page *)

(** A node of the tree BeautifulSoup builds: a text node or a tag with its
    attributes and children.  Comments and the other string kinds that
    [text] leaves out are not represented, and neither are the
    list-valued attributes ([class], [rel]): nothing modelled reads them. *)
#[warnings="-register-all"] Inductive PageElement : Type :=
| NavigableString (s : string)
| Tag (name : string) (attrs : gmap string string) (contents : list PageElement).

(** [e.descendants]: every node below [e], in document order. *)
Fixpoint descendants (e : PageElement) : list PageElement :=
  match e with
  | NavigableString _ => []
  | Tag _ _ contents => flat_map (fun c => c :: descendants c) contents
  end.

(** Is [e] a tag called [name] whose attributes include each of [attrs]
    with exactly that value? *)
Definition tag_matches (name : string) (attrs : list (string * string))
    (e : PageElement) : bool :=
  match e with
  | NavigableString _ => false
  | Tag n a _ =>
      bool_decide (n = name)
      && forallb (fun kv => bool_decide (a !! kv.1 = Some kv.2)) attrs
  end.

(** [e.find_all(name, attrs=attrs)] *)
Definition find_all (name : string) (attrs : list (string * string))
    (e : PageElement) : list PageElement :=
  List.filter (tag_matches name attrs) (descendants e).

(** [e.find(name)]: the first match, or [None]. *)
Definition find (name : string) (e : PageElement) : option PageElement :=
  head (find_all name [] e).

(** [e.select('name[key="value"]')] *)
Definition select (name key value : string) (e : PageElement) : list PageElement :=
  List.filter (tag_matches name [(key, value)]) (descendants e).

(** [e.text]: the text nodes below [e], concatenated in document order. *)
Fixpoint text (e : PageElement) : string :=
  match e with
  | NavigableString s => s
  | Tag _ _ contents => fold_right (fun c acc => text c +:+ acc) EmptyString contents
  end.

(** [e[key]] *)
Definition getitem (key : string) (e : PageElement) : outcome string :=
  match e with
  | NavigableString _ => Raise TypeError
  | Tag _ a _ => or_raise (a !! key) KeyError
  end.

(** ** Markup extractor *)

(** The [HotelItem(...)] expression in the body of the loop of
    [get_hotelitems_from_soup]; the keyword arguments are evaluated from
    left to right. *)
Definition hotelitem_of_card (soup_hotelitem : PageElement) : outcome HotelItem :=
  url ← (h3 ← or_raise (find "h3" soup_hotelitem) AttributeError;
          a ← or_raise (find "a" h3) TypeError;
          getitem "href" a);
  title ← (h3 ← or_raise (find "h3" soup_hotelitem) AttributeError;
            div ← or_raise (find "div" h3) AttributeError;
            Return (strip (text div)));
  price ← (span ← or_raise
              (head (select "span" "data-testid" "price-and-discounted-price"
                       soup_hotelitem)) IndexError;
            Return (strip (replace_nbsp (text span))));
  Return (HotelItem.mk url title price).

(** Does the card have the elements [hotelitem_of_card] reads: a heading
    with a link that has an [href] and with a [div], and a price element? *)
Definition has_required_fields (soup_hotelitem : PageElement) : bool :=
  match find "h3" soup_hotelitem with
  | None => false
  | Some h3 =>
      match find "a" h3 with
      | None => false
      | Some a =>
          match getitem "href" a with
          | Return _ => true
          | Raise _ => false
          end
      end
      && match find "div" h3 with
         | None => false
         | Some _ => true
         end
  end
  && match select "span" "data-testid" "price-and-discounted-price" soup_hotelitem with
     | [] => false
     | _ :: _ => true
     end.

(** The run of an asynchronous generator, unfolded: it yields an item and
    goes on, or stops, or raises. *)
Inductive AsyncGenerator (A : Type) : Type :=
| StopAsyncIteration
| Yield (item : A) (rest : AsyncGenerator A)
| Raising (e : exn).
Arguments StopAsyncIteration {A}.
Arguments Yield {A} item rest.
Arguments Raising {A} e.

(** The loop of [get_hotelitems_from_soup] over the cards found. *)
Fixpoint hotelitems_of_cards (cards : list PageElement) : AsyncGenerator HotelItem :=
  match cards with
  | [] => StopAsyncIteration
  | soup_hotelitem :: cards' =>
      match hotelitem_of_card soup_hotelitem with
      | Return hotelitem => Yield hotelitem (hotelitems_of_cards cards')
      | Raise e => Raising e
      end
  end.

Definition property_cards (soup : PageElement) : list PageElement :=
  find_all "div" [("data-testid", "property-card")] soup.

Definition get_hotelitems_from_soup (soup : PageElement) (url : string)
    : AsyncGenerator HotelItem :=
  hotelitems_of_cards (property_cards soup).

(** [achain]: the generators are run one after the other; a generator that
    raises ends the chain. *)
Fixpoint agen_then {A : Type} (g k : AsyncGenerator A) : AsyncGenerator A :=
  match g with
  | StopAsyncIteration => k
  | Yield item rest => Yield item (agen_then rest k)
  | Raising e => Raising e
  end.

Definition achain {A : Type} (iterables : list (AsyncGenerator A)) : AsyncGenerator A :=
  fold_right agen_then StopAsyncIteration iterables.

(** The items a generator yields before it stops or raises. *)
Fixpoint yielded {A : Type} (g : AsyncGenerator A) : list A :=
  match g with
  | Yield item rest => item :: yielded rest
  | _ => []
  end.

(** The exception a generator ends with, if it raises. *)
Fixpoint raised {A : Type} (g : AsyncGenerator A) : option exn :=
  match g with
  | StopAsyncIteration => None
  | Yield _ rest => raised rest
  | Raising e => Some e
  end.

(** ** Persistent item store *)

Module DataStore.
Record t : Type := mk { path : string; data : gmap string HotelItem }.
End DataStore.
Abbreviation DataStore := DataStore.t.

(** [DataStore(path)]: the dictionary starts empty. *)
Definition DataStore_init (path : string) : DataStore := DataStore.mk path ∅.

(** [title in data_store] *)
Definition contains (title : string) (data_store : DataStore) : bool :=
  bool_decide (is_Some (DataStore.data data_store !! title)).

(** [data_store[title] = hotelitem] *)
Definition setitem (title : string) (hotelitem : HotelItem) (data_store : DataStore)
    : DataStore :=
  DataStore.mk (DataStore.path data_store)
    (<[title := hotelitem]> (DataStore.data data_store)).

(** What a file holds, as [json.load] sees it: a JSON object whose members
    are objects with string members, or text that is not JSON.  The store
    only ever writes files of the first shape; JSON documents of other
    shapes and the layout of the text ([indent=2]) are not represented. *)
Inductive file : Type :=
| JsonFile (members : gmap string (gmap string string))
| UndecodableFile.

(** The file system: the files by path, and for each path the error, if
    any, that opening it for writing raises (a missing directory, missing
    permissions). *)
Record filesystem : Type := {
  files : gmap string file;
  open_w_error : string -> option exn
}.

(** [dataclasses.asdict(hotelitem)], the encoding [DataclassesJSONEncoder]
    gives a [HotelItem]. *)
Definition asdict (hotelitem : HotelItem) : gmap string string :=
  {[ "url" := HotelItem.url hotelitem;
     "title" := HotelItem.title hotelitem;
     "price" := HotelItem.price hotelitem ]}.

(** [HotelItem] called on the unpacked dictionary [value]: [None] stands
    for the [TypeError] raised when a field is missing or a key is not a
    field. *)
Definition hotelitem_of_kwargs (value : gmap string string) : option HotelItem :=
  match value !! "url", value !! "title", value !! "price" with
  | Some url, Some title, Some price =>
      if bool_decide (size value = 3%nat) then Some (HotelItem.mk url title price)
      else None
  | _, _, _ => None
  end.

(** The dictionary comprehension of [open]: every member is turned into a
    [HotelItem], under the same key. *)
Definition hotelitems_of_members (members : gmap string (gmap string string))
    : outcome (gmap string HotelItem) :=
  if decide (map_Forall (fun _ value => is_Some (hotelitem_of_kwargs value)) members)
  then Return (omap hotelitem_of_kwargs members)
  else Raise TypeError.

(** [DataStore.open]: a missing file is tolerated (the [FileNotFoundError]
    is caught and logged) and leaves [data] as it is. *)
Definition open (self : DataStore) (fs : filesystem) : DataStore * outcome unit :=
  match files fs !! DataStore.path self with
  | None => (self, Return tt)
  | Some UndecodableFile => (self, Raise JSONDecodeError)
  | Some (JsonFile members) =>
      match hotelitems_of_members members with
      | Return data => (DataStore.mk (DataStore.path self) data, Return tt)
      | Raise e => (self, Raise e)
      end
  end.

(** [DataStore.close]: the whole dictionary is written to [path]. *)
Definition close (self : DataStore) (fs : filesystem) : filesystem * outcome unit :=
  match open_w_error fs (DataStore.path self) with
  | Some e => (fs, Raise e)
  | None =>
      ({| files := <[DataStore.path self := JsonFile (asdict <$> DataStore.data self)]>
                     (files fs);
          open_w_error := open_w_error fs |},
       Return tt)
  end.

(** ** Discovery pipeline *)

Section Discovery.

(** The regular expression engine: [re_compile p] is
    [re.compile(p, re.IGNORECASE)], [None] when the pattern is rejected
    with [re.error]; [re_search c s] tells whether [c.search(s)] finds a
    match. *)
Context {pattern : Type}.
Variable re_compile : string -> option pattern.
Variable re_search : pattern -> string -> bool.

(** The network: what [get_soup] returns for a URL. *)
Variable get_soup : string -> outcome PageElement.

(** [[re.compile(pattern, re.IGNORECASE) for pattern in exclude_patterns]] *)
Fixpoint compile_patterns (exclude_patterns : list string) : outcome (list pattern) :=
  match exclude_patterns with
  | [] => Return []
  | p :: ps =>
      c ← or_raise (re_compile p) re_error;
      cs ← compile_patterns ps;
      Return (c :: cs)
  end.

(** The loop over the exclude patterns, left at the first one that
    matches: the pattern that is logged, if any. *)
Fixpoint first_match (exclude_patterns : list pattern) (title : string)
    : option pattern :=
  match exclude_patterns with
  | [] => None
  | p :: ps => if re_search p title then Some p else first_match ps title
  end.

(** The body of the [async for] loop of [get_new_hotelitems]. *)
Definition classify (exclude_patterns : list pattern) (data_store : DataStore)
    (result : Result) (hotelitem : HotelItem) : DataStore * Result :=
  if contains (HotelItem.title hotelitem) data_store then
    (data_store,
     Result.mk (Result.search_config result)
       (Result.num_already_in_datastore result + 1)
       (Result.num_excluded result)
       (Result.hotelitems result))
  else
    let data_store' := setitem (HotelItem.title hotelitem) hotelitem data_store in
    match first_match exclude_patterns (HotelItem.title hotelitem) with
    | Some _ =>
        (data_store',
         Result.mk (Result.search_config result)
           (Result.num_already_in_datastore result)
           (Result.num_excluded result + 1)
           (Result.hotelitems result))
    | None =>
        (data_store',
         Result.mk (Result.search_config result)
           (Result.num_already_in_datastore result)
           (Result.num_excluded result)
           (Result.hotelitems result ++ [hotelitem]))
    end.

(** The [async for] loop: the store keeps what was put into it when the
    generator raises, the result is lost. *)
Fixpoint async_for (exclude_patterns : list pattern)
    (g : AsyncGenerator HotelItem) (data_store : DataStore) (result : Result)
    : DataStore * outcome Result :=
  match g with
  | StopAsyncIteration => (data_store, Return result)
  | Raising e => (data_store, Raise e)
  | Yield hotelitem rest =>
      let '(data_store', result') :=
        classify exclude_patterns data_store result hotelitem in
      async_for exclude_patterns rest data_store' result'
  end.

Definition get_new_hotelitems (search_config : SearchConfig)
    (filter_config : FilterConfig) (data_store : DataStore)
    : DataStore * outcome Result :=
  let result := Result_init search_config in
  match compile_patterns (FilterConfig.exclude_patterns filter_config) with
  | Raise e => (data_store, Raise e)
  | Return exclude_patterns =>
      match get_soup (SearchConfig.url search_config) with
      | Raise e => (data_store, Raise e)
      | Return soup =>
          async_for exclude_patterns
            (achain [get_hotelitems_from_soup soup (SearchConfig.url search_config)])
            data_store result
      end
  end.

End Discovery.

(** The first of [items] that carries [title]: the one the store keeps. *)
Definition first_with_title (title : string) (items : list HotelItem)
    : option HotelItem :=
  List.find (fun hotelitem => bool_decide (HotelItem.title hotelitem = title)) items.

(** ** Notifier *)

(** The values a configuration loaded from JSON can hold (numbers are
    integers here). *)
#[warnings="-register-all"] Inductive pyval : Type :=
| PyNone
| PyBool (b : bool)
| PyInt (z : Z)
| PyStr (s : string)
| PyList (l : list pyval)
| PyDict (d : gmap string pyval).

(** [bool(value)] *)
Definition truthy (value : pyval) : bool :=
  match value with
  | PyNone => false
  | PyBool b => b
  | PyInt z => negb (z =? 0)
  | PyStr s => negb (bool_decide (s = EmptyString))
  | PyList l => negb (bool_decide (l = []))
  | PyDict d => negb (bool_decide (d = ∅))
  end.

(** [",".join(value)]: a [TypeError] when an element is not a [str]. *)
Fixpoint join_comma (value : list pyval) : outcome string :=
  match value with
  | [] => Return EmptyString
  | PyStr s :: [] => Return s
  | PyStr s :: rest => t ← join_comma rest; Return (s +:+ "," +:+ t)
  | _ :: _ => Raise TypeError
  end.

Module PushoverConfig.
Record t : Type := mk { token : pyval; user : pyval; device : pyval }.
End PushoverConfig.
Abbreviation PushoverConfig := PushoverConfig.t.

(** [PushoverConfig] called on the unpacked [config_dict]: [token] and
    [user] are required, [device] defaults to the empty list, any other
    key is rejected; the values are not checked. *)
Definition PushoverConfig_of_kwargs (config_dict : gmap string pyval)
    : outcome PushoverConfig :=
  if bool_decide (dom config_dict ⊆ ({[ "token"; "user"; "device" ]} : gset string))
  then
    match config_dict !! "token", config_dict !! "user" with
    | Some token, Some user =>
        Return (PushoverConfig.mk token user
                  (default (PyList []) (config_dict !! "device")))
    | _, _ => Raise TypeError
    end
  else Raise TypeError.

(** One turn of the loop of [to_params]. *)
Definition add_param (name : string) (value : pyval) (params : gmap string pyval)
    : outcome (gmap string pyval) :=
  if truthy value then
    match value with
    | PyList l => s ← join_comma l; Return (<[name := PyStr s]> params)
    | _ => Return (<[name := value]> params)
    end
  else Return params.

Definition to_params (self : PushoverConfig) : outcome (gmap string pyval) :=
  params ← add_param "token" (PushoverConfig.token self) ∅;
  params ← add_param "user" (PushoverConfig.user self) params;
  add_param "device" (PushoverConfig.device self) params.

Definition newline : string := String (ascii_of_N 10) EmptyString.
Definition dquote : string := String (ascii_of_N 34) EmptyString.

(** The two f-strings of [send_notification], joined by a newline. *)
Definition message_text (count : nat) (name url title : string) : string :=
  "<b>Found " +:+ str_of_nat count +:+ " new ad"
  +:+ (if bool_decide (count = 1%nat) then "" else "s")
  +:+ " for " +:+ name +:+ "</b>"
  +:+ newline
  +:+ "<a href=" +:+ dquote +:+ url +:+ dquote +:+ ">" +:+ title +:+ "</a>".

(** [params["message"]]; [result.hotelitems[0]] raises [IndexError] on an
    empty list. *)
Definition message (result : Result) : outcome string :=
  first ← or_raise (head (Result.hotelitems result)) IndexError;
  Return (message_text (length (Result.hotelitems result))
            (SearchConfig.name (Result.search_config result))
            (HotelItem.url first) (HotelItem.title first)).

(** The parameters [send_notification] posts to [/1/messages.json]. *)
Definition notification_params (config : PushoverConfig) (result : Result)
    : outcome (gmap string pyval) :=
  params ← to_params config;
  msg ← message result;
  Return (<["url_title" := PyStr "showing one stay, to show all click here"]>
          (<["url" := PyStr (SearchConfig.url (Result.search_config result))]>
           (<["message" := PyStr msg]>
            (<["html" := PyStr "1"]> params)))).

Section Notifier.

(** The transport: what posting the parameters and checking the status of
  the response ([raise_for_status]) comes to. *)
Variable post : gmap string pyval -> outcome unit.

(** One task of the batch: the request it hands to [session.post], if it
    gets that far, and how it ends. *)
Definition send_notification (config : PushoverConfig) (result : Result)
  : option (gmap string pyval) * outcome unit :=
match notification_params config result with
| Raise e => (None, Raise e)
| Return params => (Some params, post params)
end.

(** The scheduler.  When a task of the batch fails, [asyncio.gather]
    raises at once, the [async with] block is left and the session is
    closed, while requests of other tasks may still wait for a connection:
    those are never sent.  [goes_out k] tells whether the request of task
    number [k] was sent before the session was closed. *)
Variable goes_out : nat -> bool.

(** How the batch ends: [asyncio.gather] raises when a task raises.  When
    several tasks raise, the first of them in the order of the tasks
    stands for the one that raises first. *)
Fixpoint gathered (tasks : list (option (gmap string pyval) * outcome unit))
    : outcome unit :=
  match tasks with
  | [] => Return tt
  | (_, ended) :: tasks' =>
      match ended with
      | Return _ => gathered tasks'
      | Raise e => Raise e
      end
  end.

(** The requests the tasks hand to [session.post], each with the number
    of its task, counted from [k]. *)
Fixpoint handed_over (k : nat) (tasks : list (option (gmap string pyval) * outcome unit))
    : list (nat * gmap string pyval) :=
  match tasks with
  | [] => []
  | (Some request, _) :: tasks' => (k, request) :: handed_over (S k) tasks'
  | (None, _) :: tasks' => handed_over (S k) tasks'
  end.

(** [await asyncio.gather( *tasks)] inside the [async with] block: the
    requests that are sent, in the order of the tasks, and how the call
    ends.  When no task raises every request handed over is sent; when
    one raises, only those the scheduler let out. *)
Definition gather (tasks : list (option (gmap string pyval) * outcome unit))
    : list (gmap string pyval) * outcome unit :=
  match gathered tasks with
  | Return _ => ((handed_over 0 tasks).*2, Return tt)
  | Raise e =>
      ((List.filter (fun numbered => goes_out numbered.1) (handed_over 0 tasks)).*2,
       Raise e)
  end.

(** [if not result.hotelitems: continue] *)
Definition has_hotelitems (result : Result) : bool :=
negb (bool_decide (Result.hotelitems result = [])).

(** [send_notifications]: the requests sent, and how the call ends. *)
Definition send_notifications (results : list Result) (config_dict : gmap string pyval)
  : list (gmap string pyval) * outcome unit :=
match PushoverConfig_of_kwargs config_dict with
| Raise TypeError => ([], Raise ValueError)
| Raise e => ([], Raise e)
| Return config =>
    gather (map (send_notification config) (List.filter has_hotelitems results))
end.

End Notifier.

(** ** A concrete engine and a concrete page *)

(** The fragment of the regular expression engine the examples run on:
    a pattern made of letters, digits and spaces only matches, under
    [re.IGNORECASE], wherever it occurs as a substring up to the case of
    the letters.  Other patterns are outside the fragment and are turned
    down by [literal_compile]. *)
Definition is_literal_char (c : ascii) : bool :=
  let n := N_of_ascii c in
  ((n =? 32) || (48 <=? n) && (n <=? 57) || (65 <=? n) && (n <=? 90)
   || (97 <=? n) && (n <=? 122))%N.

Definition lower (c : ascii) : ascii :=
  let n := N_of_ascii c in
  if ((65 <=? n) && (n <=? 90))%N then ascii_of_N (n + 32) else c.

Fixpoint all_chars (f : ascii -> bool) (s : string) : bool :=
  match s with
  | EmptyString => true
  | String c s' => f c && all_chars f s'
  end.

Definition literal_compile (p : string) : option string :=
  if all_chars is_literal_char p then Some p else None.

Fixpoint matches_here (p s : string) : bool :=
  match p, s with
  | EmptyString, _ => true
  | String _ _, EmptyString => false
  | String a p', String b s' => bool_decide (lower a = lower b) && matches_here p' s'
  end.

Fixpoint literal_search (p s : string) : bool :=
  matches_here p s
  || match s with
     | EmptyString => false
     | String _ s' => literal_search p s'
     end.

Definition nbsp : string := String (ascii_of_N 160) EmptyString.

(** A listing card as the site renders it. *)
Definition property_card (href title price : string) : PageElement :=
  Tag "div" {[ "data-testid" := "property-card" ]}
    [ Tag "h3" ∅
        [ Tag "a" {[ "href" := href ]}
            [ Tag "div" {[ "data-testid" := "title" ]} [ NavigableString title ] ] ];
      Tag "span" {[ "data-testid" := "price-and-discounted-price" ]}
        [ NavigableString price ] ].

Definition page_of_cards (cards : list PageElement) : PageElement :=
  Tag "[document]" ∅ [ Tag "html" ∅ [ Tag "body" ∅ cards ] ].

Definition cozy_loft : HotelItem := HotelItem.mk "/hotel/cozy-loft" "Cozy Loft" "$ 100".
Definition studio_flat : HotelItem := HotelItem.mk "/hotel/studio-flat" "Studio Flat" "$ 80".

Definition two_card_page : PageElement :=
  page_of_cards
    [ property_card "/hotel/cozy-loft" (newline +:+ "  Cozy Loft ") ("$" +:+ nbsp +:+ "100");
      property_card "/hotel/studio-flat" "Studio Flat" (" $" +:+ nbsp +:+ "80" +:+ newline) ].

Definition example_search : SearchConfig :=
  SearchConfig.mk "lofts" "https://www.booking.com/searchresults.html" true.

Definition example_store : DataStore := DataStore_init "datastore.json".

(** The network of the examples: every URL serves [page]. *)
Definition serve (page : PageElement) (url : string) : outcome PageElement :=
  Return page.

(** The store of the examples after a run over [two_card_page]. *)
Definition example_store_after : DataStore :=
  DataStore.mk "datastore.json"
    (<["Studio Flat" := studio_flat]> (<["Cozy Loft" := cozy_loft]> ∅)).

(** A card without its price element, between two cards that are whole. *)
Definition card_without_price : PageElement :=
  Tag "div" {[ "data-testid" := "property-card" ]}
    [ Tag "h3" ∅
        [ Tag "a" {[ "href" := "/hotel/attic" ]}
            [ Tag "div" {[ "data-testid" := "title" ]} [ NavigableString "Attic" ] ] ] ].

Definition defective_page : PageElement :=
  page_of_cards
    [ property_card "/hotel/studio-flat" "Studio Flat" "$ 80";
      card_without_price;
      property_card "/hotel/cozy-loft" "Cozy Loft" "$ 100" ].

(** Two cards with one title and different links and prices. *)
Definition cozy_loft_again : HotelItem :=
  HotelItem.mk "/hotel/cozy-loft-2" "Cozy Loft" "$ 120".

Definition same_title_page : PageElement :=
  page_of_cards
    [ property_card "/hotel/cozy-loft" "Cozy Loft" "$ 100";
      property_card "/hotel/cozy-loft-2" "Cozy Loft" "$ 120" ].

(** A file system without files, on which every path can be written. *)
Definition empty_filesystem : filesystem :=
  {| files := ∅; open_w_error := fun _ => None |}.

Definition example_config_dict : gmap string pyval :=
  {[ "token" := PyStr "app-token";
     "user" := PyStr "user-key";
     "device" := PyList [PyStr "phone"; PyStr "tablet"] ]}.

Definition example_config : PushoverConfig :=
  PushoverConfig.mk (PyStr "app-token") (PyStr "user-key")
    (PyList [PyStr "phone"; PyStr "tablet"]).

Definition example_params : gmap string pyval :=
  {[ "token" := PyStr "app-token";
     "user" := PyStr "user-key";
     "device" := PyStr "phone,tablet" ]}.

Definition example_results : list Result :=
  [ Result.mk example_search 0 0 [studio_flat; cozy_loft];
    Result.mk example_search 2 0 [] ].

(** The transport of the examples accepts every request. *)
Definition accept (params : gmap string pyval) : outcome unit := Return tt.

(** A scheduler under which no request goes out once a task has failed,
    and a transport that refuses every request. *)
Definition none_goes_out (k : nat) : bool := false.

Definition refuse (params : gmap string pyval) : outcome unit := Raise ClientError.


(** The claim that extraction leaves no partial results, as a statement
    about the generator: a page with a card that cannot be read yields
    nothing. *)
Definition no_partial_results : Prop :=
  forall soup url,
    Exists (fun card => has_required_fields card = false) (property_cards soup) ->
    yielded (get_hotelitems_from_soup soup url) = [].

(** ** Further definitions *)

(** Does [s] begin, or end, with a character [strip] removes? *)
Definition starts_with_space (s : string) : bool :=
  match s with
  | EmptyString => false
  | String c _ => isspace c
  end.

Definition ends_with_space (s : string) : bool := starts_with_space (str_rev s).

(** Does [s] hold a no-break space? *)
Fixpoint has_nbsp (s : string) : bool :=
  match s with
  | EmptyString => false
  | String c s' => (N_of_ascii c =? 160)%N || has_nbsp s'
  end.

(** The exceptions a card that cannot be read raises. *)
Definition extraction_error (e : exn) : bool :=
  match e with
  | AttributeError | TypeError | KeyError | IndexError => true
  | _ => false
  end.

(** The [with DataStore(path) as data_store:] statement around [body]:
    [__enter__] opens the store, and when that raises the body is not
    entered; [__exit__] closes it however the body ends and, returning
    [None], lets an exception of the body through, unless [close] raises
    itself. *)
Definition with_DataStore {A : Type} (path : string) (fs : filesystem)
    (body : DataStore -> DataStore * outcome A) : filesystem * outcome A :=
  let '(self, entered) := open (DataStore_init path) fs in
  match entered with
  | Raise e => (fs, Raise e)
  | Return _ =>
      let '(self', ended) := body self in
      let '(fs', exited) := close self' fs in
      match exited with
      | Raise e => (fs', Raise e)
      | Return _ => (fs', ended)
      end
  end.

(** A file of the secrets script, by what reading it gives:
    [JsonDocument json_data] is a file from which [json.load] returns
    [json_data]; [Unloadable e] is a file on which reading raises [e], a
    [JSONDecodeError] for text that is not JSON, a [ValueError] for a
    number [json.load] refuses to convert. *)
Inductive json_file : Type :=
| JsonDocument (json_data : pyval)
| Unloadable (e : exn).

Record json_filesystem : Type := {
  json_files : gmap string json_file;
  json_open_w_error : string -> option exn
}.

(** How [add_tokens] ends: it returns, or raises the plain [Exception] of
    its own, or an exception of the interpreter or the library. *)
Inductive script_end : Set :=
| Finished
| RaiseException
| RaiseBuiltin (e : exn).

(** [value[key]]: only a dictionary can be subscripted with a string. *)
Definition subscript (key : string) (value : pyval) : outcome pyval :=
  match value with
  | PyDict d => or_raise (d !! key) KeyError
  | _ => Raise TypeError
  end.

(** [target[key] = value] *)
Definition store_subscript (key : string) (value target : pyval) : outcome pyval :=
  match target with
  | PyDict d => Return (PyDict (<[key := value]> d))
  | _ => Raise TypeError
  end.

(** [json_data["notifications"]["pushover"][field] = secret].  The
    dictionaries are changed in place; here the changed inner dictionary
    is put back where it was found. *)
Definition set_secret (field secret : string) (json_data : pyval) : outcome pyval :=
  notifications ← subscript "notifications" json_data;
  pushover ← subscript "pushover" notifications;
  pushover' ← store_subscript field (PyStr secret) pushover;
  notifications' ← store_subscript "pushover" pushover' notifications;
  store_subscript "notifications" notifications' json_data.

(** [add_tokens]; a missing file raises [FileNotFoundError], which is an
    [OSError], and a file that cannot be read as JSON raises what reading
    it raises; both happen before the environment is looked at. *)
Definition add_tokens (file_path app_token user_token : string)
    (environ : gmap string string) (fs : json_filesystem)
    : json_filesystem * script_end :=
  match json_files fs !! file_path with
  | None => (fs, RaiseBuiltin OSError)
  | Some (Unloadable e) => (fs, RaiseBuiltin e)
  | Some (JsonDocument json_data) =>
      match environ !! app_token, environ !! user_token with
      | Some secret_app_token, Some secret_user_token =>
          match (json_data' ← set_secret "token" secret_app_token json_data;
                 set_secret "user" secret_user_token json_data') with
          | Raise e => (fs, RaiseBuiltin e)
          | Return json_data' =>
              match json_open_w_error fs file_path with
              | Some e => (fs, RaiseBuiltin e)
              | None =>
                  ({| json_files := <[file_path := JsonDocument json_data']>
                                      (json_files fs);
                      json_open_w_error := json_open_w_error fs |},
                   Finished)
              end
          end
      | _, _ => (fs, RaiseException)
      end
  end.

(** The document [d] in which the settings [p] of the provider, found in
    [n] under [d], carry the two secrets. *)
Definition document_with_secrets (d n p : gmap string pyval)
    (secret_app_token secret_user_token : string) : pyval :=
  PyDict (<["notifications" :=
              PyDict (<["pushover" :=
                          PyDict (<["user" := PyStr secret_user_token]>
                                  (<["token" := PyStr secret_app_token]> p))]> n)]> d).

(** The settings of the provider in a configuration document. *)
Definition pushover_settings (json_data : pyval) : outcome pyval :=
  notifications ← subscript "notifications" json_data;
  subscript "pushover" notifications.

(** A configuration file before the secrets are added, and the
    environment that holds them. *)
Definition example_config_document : pyval :=
  PyDict {[ "filter" := PyDict {[ "exclude_patterns" := PyList [PyStr "loft"] ]};
            "notifications" :=
              PyDict {[ "pushover" := PyDict {[ "device" := PyList [PyStr "phone"] ]} ]} ]}.

Definition example_json_filesystem : json_filesystem :=
  {| json_files := {[ "config.json" := JsonDocument example_config_document ]};
     json_open_w_error := fun _ => None |}.

Definition example_environ : gmap string string :=
  {[ "APPTOKEN" := "app-token"; "USERTOKEN" := "user-key" ]}.

(** A card without a heading, and a page that ends with it. *)
Definition card_without_heading : PageElement :=
  Tag "div" {[ "data-testid" := "property-card" ]}
    [ Tag "span" {[ "data-testid" := "price-and-discounted-price" ]}
        [ NavigableString "$ 90" ] ].

(** A second search page, which lists the studio again and a new flat. *)
Definition garden_flat : HotelItem :=
  HotelItem.mk "/hotel/garden-flat" "Garden Flat" "$ 95".

Definition other_page : PageElement :=
  page_of_cards
    [ property_card "/hotel/studio-flat?src=2" "Studio Flat" "$ 85";
      property_card "/hotel/garden-flat" "Garden Flat" "$ 95" ].

(** A network that serves [two_card_page] for the first search and
    [other_page] for any other URL. *)
Definition serve_two (url : string) : outcome PageElement :=
  if bool_decide (url = SearchConfig.url example_search) then Return two_card_page
  else Return other_page.

Definition other_search : SearchConfig :=
  SearchConfig.mk "flats" "https://www.booking.com/searchresults.html?page=2" true.

(** ** Properties of the extractor *)

Lemma agen_then_stop {A : Type} (g : AsyncGenerator A) :
  agen_then g StopAsyncIteration = g.
Proof. induction g as [|item rest IH|e]; simpl; [done | by rewrite IH | done]. Qed.

Lemma achain_single {A : Type} (g : AsyncGenerator A) : achain [g] = g.
Proof. apply agen_then_stop. Qed.

Lemma two_card_page_items url :
  get_hotelitems_from_soup two_card_page url
  = Yield cozy_loft (Yield studio_flat StopAsyncIteration).
Proof. vm_compute. reflexivity. Qed.

(** A card is read exactly when it has the required elements. *)
Lemma hotelitem_of_card_Return card :
  has_required_fields card = true -> exists item, hotelitem_of_card card = Return item.
Proof.
  unfold has_required_fields, hotelitem_of_card.
  destruct (find "h3" card) as [h3|]; simpl; [|done].
  destruct (find "a" h3) as [a|]; simpl; [|done].
  destruct (getitem "href" a) as [href|]; simpl; [|done].
  destruct (find "div" h3) as [div|]; simpl; [|done].
  destruct (select _ _ _ card) as [|span spans]; simpl; [done|].
  intros _. by eexists.
Qed.

Lemma hotelitem_of_card_Raise card :
  has_required_fields card = false -> exists e, hotelitem_of_card card = Raise e.
Proof.
  unfold has_required_fields, hotelitem_of_card.
  destruct (find "h3" card) as [h3|]; simpl; [|by eexists].
  destruct (find "a" h3) as [a|]; simpl; [|by eexists].
  destruct (getitem "href" a) as [href|]; simpl; [|by eexists].
  destruct (find "div" h3) as [div|]; simpl; [|by eexists].
  destruct (select _ _ _ card) as [|span spans]; simpl; [by eexists | done].
Qed.

(** The cards up to the first one that lacks a required element. *)
Lemma first_defective_card cards :
  Exists (fun card => has_required_fields card = false) cards ->
  exists good bad rest,
    cards = good ++ bad :: rest
    /\ Forall (fun card => has_required_fields card = true) good
    /\ has_required_fields bad = false.
Proof.
  induction cards as [|card cards IH]; intros Hex.
  - by apply Exists_nil in Hex.
  - destruct (has_required_fields card) eqn:Hcard.
    + apply Exists_cons in Hex as [Hex | Hex]; [congruence|].
      destruct (IH Hex) as (good & bad & rest & -> & Hgood & Hbad).
      exists (card :: good), bad, rest. split; [done|]. split; [|done].
      by constructor.
    + exists [], card, cards. split; [done|]. split; [constructor | done].
Qed.

Lemma hotelitems_of_good_cards good :
  Forall (fun card => has_required_fields card = true) good ->
  exists items,
    Forall2 (fun card item => hotelitem_of_card card = Return item) good items.
Proof.
  induction 1 as [|card good Hcard _ [items IH]].
  - exists []. constructor.
  - destruct (hotelitem_of_card_Return card Hcard) as [item Hitem].
    exists (item :: items). by constructor.
Qed.

(** The generator yields the items of the cards up to the first card that
    cannot be read, and raises there. *)
Lemma hotelitems_of_cards_raise good bad rest items e :
  Forall2 (fun card item => hotelitem_of_card card = Return item) good items ->
  hotelitem_of_card bad = Raise e ->
  yielded (hotelitems_of_cards (good ++ bad :: rest)) = items
  /\ raised (hotelitems_of_cards (good ++ bad :: rest)) = Some e.
Proof.
  intros Hgood Hbad. induction Hgood as [|card item good items Hcard _ IH]; simpl.
  - by rewrite Hbad.
  - rewrite Hcard. simpl. destruct IH as [-> ->]. done.
Qed.

(** A generator that does not raise has yielded one item per card. *)
Lemma hotelitems_of_cards_length cards :
  raised (hotelitems_of_cards cards) = None ->
  length (yielded (hotelitems_of_cards cards)) = length cards.
Proof.
  induction cards as [|card cards IH]; simpl; [done|].
  destruct (hotelitem_of_card card); simpl; [|done].
  intros H. by rewrite IH.
Qed.

(** ** Properties of the discovery loop *)

Section DiscoveryProperties.

Context {pattern : Type}.
Variable re_compile : string -> option pattern.
Variable re_search : pattern -> string -> bool.
Variable get_soup : string -> outcome PageElement.

Implicit Types (exclude_patterns : list pattern) (g : AsyncGenerator HotelItem).
Implicit Types (data_store : DataStore) (result : Result) (hotelitem : HotelItem).

Lemma contains_true title data_store :
  contains title data_store = true <-> is_Some (DataStore.data data_store !! title).
Proof. unfold contains. by rewrite bool_decide_eq_true. Qed.

Lemma contains_false title data_store :
  contains title data_store = false <-> DataStore.data data_store !! title = None.
Proof.
  unfold contains. rewrite bool_decide_eq_false. by rewrite eq_None_not_Some.
Qed.






(** What one turn of the loop does to the store. *)
Lemma classify_data_lookup exclude_patterns data_store result hotelitem title :
  DataStore.data (classify re_search exclude_patterns data_store result hotelitem).1
    !! title
  = match DataStore.data data_store !! title with
    | Some known => Some known
    | None => if bool_decide (HotelItem.title hotelitem = title)
              then Some hotelitem else None
    end.
Proof.
  unfold classify. destruct (contains _ data_store) eqn:Hin; simpl.
  - apply contains_true in Hin as [known Hknown].
    destruct (DataStore.data data_store !! title) eqn:Ht; [done|].
    case_bool_decide; [congruence | done].
  - apply contains_false in Hin.
    assert (DataStore.data (setitem (HotelItem.title hotelitem) hotelitem data_store)
              !! title
            = match DataStore.data data_store !! title with
              | Some known => Some known
              | None => if bool_decide (HotelItem.title hotelitem = title)
                        then Some hotelitem else None
              end) as Hset.
    { simpl. case_bool_decide as Heq.
      - subst title. by rewrite lookup_insert_eq, Hin.
      - rewrite lookup_insert_ne by done. by destruct (_ !! title). }
    by destruct (first_match _ _ _).
Qed.

Lemma classify_path exclude_patterns data_store result hotelitem :
  DataStore.path (classify re_search exclude_patterns data_store result hotelitem).1
  = DataStore.path data_store.
Proof.
  unfold classify. destruct (contains _ _); [done|]. by destruct (first_match _ _ _).
Qed.

(** The final store, entry by entry: what was known is kept, and a title
    that was not known holds the first item that carries it. *)
Lemma async_for_data_lookup exclude_patterns g data_store result title :
  DataStore.data (async_for re_search exclude_patterns g data_store result).1 !! title
  = match DataStore.data data_store !! title with
    | Some known => Some known
    | None => first_with_title title (yielded g)
    end.
Proof.
  revert data_store result.
  induction g as [|hotelitem rest IH|e]; intros data_store result; simpl.
  - by destruct (_ !! title).
  - pose proof (classify_data_lookup exclude_patterns data_store result hotelitem title)
      as Hstep.
    destruct (classify _ _ _ _ _) as [data_store' result']. simpl in Hstep.
    rewrite IH, Hstep.
    destruct (DataStore.data data_store !! title); [done|]. by case_bool_decide.
  - by destruct (_ !! title).
Qed.

Lemma async_for_store exclude_patterns g data_store result data_store' out title :
  async_for re_search exclude_patterns g data_store result = (data_store', out) ->
  DataStore.data data_store' !! title
  = match DataStore.data data_store !! title with
    | Some known => Some known
    | None => first_with_title title (yielded g)
    end.
Proof.
  intros Hrun.
  pose proof (async_for_data_lookup exclude_patterns g data_store result title) as H.
  by rewrite Hrun in H.
Qed.

Lemma async_for_path exclude_patterns g data_store result :
  DataStore.path (async_for re_search exclude_patterns g data_store result).1
  = DataStore.path data_store.
Proof.
  revert data_store result.
  induction g as [|hotelitem rest IH|e]; intros data_store result; simpl; try done.
  pose proof (classify_path exclude_patterns data_store result hotelitem) as Hstep.
  destruct (classify _ _ _ _ _) as [data_store' result']. simpl in Hstep.
  by rewrite IH.
Qed.

(** The loop returns a result exactly when the generator does not raise. *)
Lemma async_for_raised exclude_patterns g data_store result :
  match (async_for re_search exclude_patterns g data_store result).2 with
  | Return _ => raised g = None
  | Raise e => raised g = Some e
  end.
Proof.
  revert data_store result.
  induction g as [|hotelitem rest IH|e]; intros data_store result; simpl; try done.
  destruct (classify _ _ _ _ _) as [data_store' result']. apply IH.
Qed.

(** The items the loop appends: each was unknown to the store, matched no
    pattern, and is the first yielded item with its title. *)
Lemma async_for_new_items exclude_patterns g data_store result data_store' result' :
  async_for re_search exclude_patterns g data_store result
  = (data_store', Return result') ->
  Result.search_config result' = Result.search_config result
  /\ exists new,
      Result.hotelitems result' = Result.hotelitems result ++ new
      /\ Forall (fun hotelitem =>
                   DataStore.data data_store !! HotelItem.title hotelitem = None
                   /\ first_match re_search exclude_patterns
                        (HotelItem.title hotelitem) = None
                   /\ first_with_title (HotelItem.title hotelitem) (yielded g)
                      = Some hotelitem) new.
Proof.
  revert data_store result.
  induction g as [|hotelitem rest IH|e]; intros data_store result; simpl.
  - intros [= <- <-]. split; [done|]. exists []. by rewrite app_nil_r.
  - pose proof (classify_data_lookup exclude_patterns data_store result hotelitem)
      as Hdata.
    destruct (classify _ _ _ _ _) as [data_store1 result1] eqn:Hstep.
    simpl in Hdata. intros Hrun.
    destruct (IH _ _ Hrun) as (Hsc & new & Hnew & Hall).
    assert (Forall (fun h =>
              DataStore.data data_store !! HotelItem.title h = None
              /\ first_match re_search exclude_patterns (HotelItem.title h) = None
              /\ first_with_title (HotelItem.title h) (hotelitem :: yielded rest)
                 = Some h) new) as Hall'.
    { eapply Forall_impl; [exact Hall|]. intros h (Hnone & Hmatch & Hfirst).
      rewrite Hdata in Hnone.
      destruct (DataStore.data data_store !! HotelItem.title h); [done|].
      unfold first_with_title. simpl.
      case_bool_decide; [done|]. done. }
    unfold classify in Hstep.
    destruct (contains _ data_store) eqn:Hin.
    + injection Hstep as <- <-. simpl in *. split; [done|]. by exists new.
    + apply contains_false in Hin.
      destruct (first_match _ _ _) eqn:Hmatch; injection Hstep as <- <-; simpl in *.
      * split; [done|]. by exists new.
      * split; [done|]. exists (hotelitem :: new).
        rewrite Hnew, <- app_assoc. split; [done|].
        constructor; [|done]. split; [done|]. split; [done|].
        unfold first_with_title. simpl. by rewrite bool_decide_eq_true_2.
  - done.
Qed.

(** Every yielded item adds one to exactly one of the three tallies, and
    the store grows by the excluded and the new items. *)
Lemma async_for_counts exclude_patterns g data_store result data_store' result' :
  async_for re_search exclude_patterns g data_store result
  = (data_store', Return result') ->
  Result.num_already_in_datastore result' + Result.num_excluded result'
    + Z.of_nat (length (Result.hotelitems result'))
  = Result.num_already_in_datastore result + Result.num_excluded result
    + Z.of_nat (length (Result.hotelitems result))
    + Z.of_nat (length (yielded g))
  /\ Z.of_nat (size (DataStore.data data_store'))
     = Z.of_nat (size (DataStore.data data_store))
       + (Result.num_excluded result' - Result.num_excluded result)
       + (Z.of_nat (length (Result.hotelitems result'))
          - Z.of_nat (length (Result.hotelitems result))).
Proof.
  revert data_store result.
  induction g as [|hotelitem rest IH|e]; intros data_store result; simpl.
  - intros [= <- <-]. lia.
  - destruct (classify _ _ _ _ _) as [data_store1 result1] eqn:Hstep.
    intros Hrun. destruct (IH _ _ Hrun) as [Hsum Hsize].
    unfold classify in Hstep.
    destruct (contains _ data_store) eqn:Hin.
    + injection Hstep as <- <-. simpl in *. lia.
    + apply contains_false in Hin.
      pose proof (map_size_insert_None _ hotelitem _ Hin) as Hgrow.
      destruct (first_match _ _ _); injection Hstep as <- <-; simpl in *.
      * lia.
      * rewrite length_app in *. simpl in *. lia.
  - done.
Qed.

(** When every yielded title is known, the loop only counts. *)
Lemma async_for_known exclude_patterns g data_store result :
  raised g = None ->
  Forall (fun hotelitem =>
            is_Some (DataStore.data data_store !! HotelItem.title hotelitem))
    (yielded g) ->
  async_for re_search exclude_patterns g data_store result
  = (data_store,
     Return (Result.mk (Result.search_config result)
               (Result.num_already_in_datastore result
                + Z.of_nat (length (yielded g)))
               (Result.num_excluded result)
               (Result.hotelitems result))).
Proof.
  revert result.
  induction g as [|hotelitem rest IH|e]; intros result; simpl.
  - intros _ _. destruct result; simpl. do 3 f_equal. lia.
  - intros Hraised Hknown. apply Forall_cons in Hknown as [Hfirst Hrest].
    unfold classify. apply contains_true in Hfirst. rewrite Hfirst.
    rewrite IH by done. simpl. do 3 f_equal. lia.
  - done.
Qed.


Lemma first_with_title_elem_of (items : list HotelItem) hotelitem :
  hotelitem ∈ items -> is_Some (first_with_title (HotelItem.title hotelitem) items).
Proof.
  unfold first_with_title. induction 1 as [h items|h h' items _ IH]; simpl.
  - rewrite bool_decide_eq_true_2 by done. by eexists.
  - case_bool_decide; [by eexists | done].
Qed.

Lemma first_with_title_app (l1 l2 : list HotelItem) first :
  Forall (fun h => HotelItem.title h <> HotelItem.title first) l1 ->
  first_with_title (HotelItem.title first) (l1 ++ first :: l2) = Some first.
Proof.
  unfold first_with_title. induction 1 as [|h l1 Hh _ IH]; simpl.
  - by rewrite bool_decide_eq_true_2.
  - by rewrite bool_decide_eq_false_2.
Qed.

(** The run, once the patterns are compiled and the page is fetched. *)
Lemma get_new_hotelitems_run search_config filter_config data_store
    exclude_patterns soup :
  compile_patterns re_compile (FilterConfig.exclude_patterns filter_config)
  = Return exclude_patterns ->
  get_soup (SearchConfig.url search_config) = Return soup ->
  get_new_hotelitems re_compile re_search get_soup search_config filter_config
    data_store
  = async_for re_search exclude_patterns
      (get_hotelitems_from_soup soup (SearchConfig.url search_config))
      data_store (Result_init search_config).
Proof.
  intros Hcompile Hsoup. unfold get_new_hotelitems.
  by rewrite Hcompile, Hsoup, achain_single.
Qed.

(** A run that returns a result compiled the patterns and fetched the page. *)
Lemma get_new_hotelitems_Return search_config filter_config data_store
    data_store' result :
  get_new_hotelitems re_compile re_search get_soup search_config filter_config
    data_store = (data_store', Return result) ->
  exists exclude_patterns soup,
    compile_patterns re_compile (FilterConfig.exclude_patterns filter_config)
    = Return exclude_patterns
    /\ get_soup (SearchConfig.url search_config) = Return soup
    /\ async_for re_search exclude_patterns
         (get_hotelitems_from_soup soup (SearchConfig.url search_config))
         data_store (Result_init search_config)
       = (data_store', Return result).
Proof.
  unfold get_new_hotelitems.
  destruct (compile_patterns _ _) as [exclude_patterns|]; [|done].
  destruct (get_soup _) as [soup|]; [|done].
  rewrite achain_single. intros Hrun. by exists exclude_patterns, soup.
Qed.

(** C1: an item whose title the store does not hold is put into the store
    whatever the exclude patterns are, before any of them is tested; so an
    extracted item whose title matches an exclude pattern is a key of the
    store after the run and is not among the new items of the result. *)
Theorem C1_stored_before_filtering search_config filter_config data_store
    data_store' out exclude_patterns soup hotelitem :
  compile_patterns re_compile (FilterConfig.exclude_patterns filter_config)
  = Return exclude_patterns ->
  get_soup (SearchConfig.url search_config) = Return soup ->
  get_new_hotelitems re_compile re_search get_soup search_config filter_config
    data_store = (data_store', out) ->
  hotelitem ∈ yielded (get_hotelitems_from_soup soup (SearchConfig.url search_config)) ->
  (forall (patterns : list pattern) store result,
     contains (HotelItem.title hotelitem) store = false ->
     DataStore.data (classify re_search patterns store result hotelitem).1
       !! HotelItem.title hotelitem = Some hotelitem)
  /\ (is_Some (first_match re_search exclude_patterns (HotelItem.title hotelitem)) ->
      is_Some (DataStore.data data_store' !! HotelItem.title hotelitem)
      /\ forall result, out = Return result -> hotelitem ∉ Result.hotelitems result).
Proof.
  intros Hcompile Hsoup Hrun Hin. split.
  - intros patterns store result Hnew. rewrite classify_data_lookup.
    apply contains_false in Hnew. rewrite Hnew. by rewrite bool_decide_eq_true_2.
  - intros Hmatch. rewrite (get_new_hotelitems_run _ _ _ _ _ Hcompile Hsoup) in Hrun.
    split.
    + rewrite (async_for_store _ _ _ _ _ _ _ Hrun).
      destruct (DataStore.data data_store !! _); [by eexists|].
      by apply first_with_title_elem_of.
    + intros result ->. apply async_for_new_items in Hrun as (_ & new & Hnew & Hall).
      simpl in Hnew. rewrite Hnew. intros Helem.
      rewrite Forall_forall in Hall. destruct (Hall _ Helem) as (_ & Hnone & _).
      rewrite Hnone in Hmatch. by destruct Hmatch.
Qed.

(** C2: an item whose title is a key of the store adds one to
    [num_already_in_datastore] and changes nothing else, whatever the
    patterns and the matcher are; of two extracted items with the same
    title, the store keeps what it held under that title, or else the first
    of them, and the second is not among the new items. *)
Theorem C2_known_title_skipped :
  (forall exclude_patterns data_store result hotelitem,
     contains (HotelItem.title hotelitem) data_store = true ->
     classify re_search exclude_patterns data_store result hotelitem
     = (data_store,
        Result.mk (Result.search_config result)
          (Result.num_already_in_datastore result + 1)
          (Result.num_excluded result) (Result.hotelitems result))
     /\ forall (re_search' : pattern -> string -> bool) exclude_patterns',
          classify re_search' exclude_patterns' data_store result hotelitem
          = classify re_search exclude_patterns data_store result hotelitem)
  /\ (forall search_config filter_config data_store data_store' result soup
        l1 first l2 second l3,
        get_soup (SearchConfig.url search_config) = Return soup ->
        get_new_hotelitems re_compile re_search get_soup search_config filter_config
          data_store = (data_store', Return result) ->
        yielded (get_hotelitems_from_soup soup (SearchConfig.url search_config))
        = l1 ++ first :: l2 ++ second :: l3 ->
        Forall (fun h => HotelItem.title h <> HotelItem.title first) l1 ->
        HotelItem.title second = HotelItem.title first ->
        second <> first ->
        DataStore.data data_store' !! HotelItem.title first
        = match DataStore.data data_store !! HotelItem.title first with
          | Some known => Some known
          | None => Some first
          end
        /\ second ∉ Result.hotelitems result).
Proof.
  split.
  - intros exclude_patterns data_store result hotelitem Hin.
    unfold classify. by rewrite Hin.
  - intros search_config filter_config data_store data_store' result soup
      l1 first l2 second l3 Hsoup Hrun Hyield Hl1 Htitle Hne.
    apply get_new_hotelitems_Return in Hrun
      as (exclude_patterns & soup' & _ & Hsoup' & Hrun).
    rewrite Hsoup in Hsoup'. injection Hsoup' as <-.
    pose proof (first_with_title_app l1 (l2 ++ second :: l3) first Hl1) as Hfirst.
    rewrite <- Hyield in Hfirst. split.
    + by rewrite (async_for_store _ _ _ _ _ _ _ Hrun), Hfirst.
    + apply async_for_new_items in Hrun as (_ & new & Hnew & Hall).
      simpl in Hnew. rewrite Hnew. intros Helem.
      rewrite Forall_forall in Hall. destruct (Hall _ Helem) as (_ & _ & Hsecond).
      rewrite Htitle, Hfirst in Hsecond. by injection Hsecond as ->.
Qed.


(** C4: a second run on the store the first run left, with the page
    unchanged, finds nothing new and excludes nothing: it counts as already
    known every item the first run counted, in any of its three tallies,
    and leaves the store as it is. *)
Theorem C4_second_run_idempotent search_config filter_config data_store
    data_store' result :
  get_new_hotelitems re_compile re_search get_soup search_config filter_config
    data_store = (data_store', Return result) ->
  get_new_hotelitems re_compile re_search get_soup search_config filter_config
    data_store'
  = (data_store',
     Return (Result.mk search_config
               (Result.num_already_in_datastore result + Result.num_excluded result
                + Z.of_nat (length (Result.hotelitems result)))
               0 [])).
Proof.
  intros Hrun.
  apply get_new_hotelitems_Return in Hrun as (exclude_patterns & soup & Hcs & Hsoup & Hrun).
  rewrite (get_new_hotelitems_run _ _ _ _ _ Hcs Hsoup).
  set (g := get_hotelitems_from_soup soup (SearchConfig.url search_config)) in *.
  pose proof (async_for_raised exclude_patterns g data_store (Result_init search_config))
    as Hraised.
  pose proof (async_for_counts _ _ _ _ _ _ Hrun) as [Hsum _].
  assert (Forall (fun h => is_Some (DataStore.data data_store' !! HotelItem.title h))
            (yielded g)) as Hknown.
  { apply Forall_forall. intros h Hh.
    rewrite (async_for_store _ _ _ _ _ _ _ Hrun).
    destruct (DataStore.data data_store !! _); [by eexists|].
    by apply first_with_title_elem_of. }
  rewrite Hrun in Hraised. simpl in Hraised.
  rewrite (async_for_known _ _ _ _ Hraised Hknown). simpl in *.
  do 3 f_equal. lia.
Qed.

(** C5: on a page with the two items titled Cozy Loft and Studio Flat, in
    that order, an empty store and the single exclude pattern loft, which
    matches the first title and not the second, the run returns no known
    item, one excluded item and the Studio Flat item as the only new one,
    and the store then holds exactly the two titles. *)
Theorem C5_cozy_loft_example search_config data_store soup loft first second :
  re_compile "loft" = Some loft ->
  re_search loft "Cozy Loft" = true ->
  re_search loft "Studio Flat" = false ->
  get_soup (SearchConfig.url search_config) = Return soup ->
  get_hotelitems_from_soup soup (SearchConfig.url search_config)
  = Yield first (Yield second StopAsyncIteration) ->
  HotelItem.title first = "Cozy Loft" ->
  HotelItem.title second = "Studio Flat" ->
  DataStore.data data_store = ∅ ->
  exists data_store',
    get_new_hotelitems re_compile re_search get_soup search_config
      (FilterConfig.mk ["loft"]) data_store
    = (data_store', Return (Result.mk search_config 0 1 [second]))
    /\ DataStore.data data_store'
       = <["Studio Flat" := second]> (<["Cozy Loft" := first]> ∅)
    /\ dom (DataStore.data data_store')
       = ({[ "Cozy Loft"; "Studio Flat" ]} : gset string).
Proof.
  intros Hcompile Hloft Hflat Hsoup Hitems Hfirst Hsecond Hempty.
  destruct data_store as [path data]. simpl in Hempty. subst data.
  eexists. split; [|split].
  - rewrite (get_new_hotelitems_run _ _ _ [loft] soup);
      [|by simpl; rewrite Hcompile|done].
    rewrite Hitems. simpl.
    assert (classify re_search [loft] (DataStore.mk path ∅)
              (Result_init search_config) first
            = (setitem "Cozy Loft" first (DataStore.mk path ∅),
               Result.mk search_config 0 1 [])) as ->.
    { unfold classify.
      assert (contains (HotelItem.title first) (DataStore.mk path ∅) = false) as ->.
      { apply contains_false. apply lookup_empty. }
      rewrite Hfirst. simpl. by rewrite Hloft. }
    assert (classify re_search [loft]
              (setitem "Cozy Loft" first (DataStore.mk path ∅))
              (Result.mk search_config 0 1 []) second
            = (setitem "Studio Flat" second
                 (setitem "Cozy Loft" first (DataStore.mk path ∅)),
               Result.mk search_config 0 1 [second])) as ->.
    { unfold classify.
      assert (contains (HotelItem.title second)
                (setitem "Cozy Loft" first (DataStore.mk path ∅)) = false) as ->.
      { apply contains_false. simpl. rewrite Hsecond.
        rewrite lookup_insert_ne by done. apply lookup_empty. }
      rewrite Hsecond. simpl. by rewrite Hflat. }
    reflexivity.
  - reflexivity.
  - simpl. rewrite !dom_insert_L, dom_empty_L. set_solver.
Qed.

(** C10: when a run returns, the three tallies of its result add up to the
    number of items extracted from the page, one per property card, and the
    store has grown by the number of excluded items plus the number of new
    items. *)
Theorem C10_tallies_partition search_config filter_config data_store
    data_store' result soup :
  get_soup (SearchConfig.url search_config) = Return soup ->
  get_new_hotelitems re_compile re_search get_soup search_config filter_config
    data_store = (data_store', Return result) ->
  Result.num_already_in_datastore result + Result.num_excluded result
    + Z.of_nat (length (Result.hotelitems result))
  = Z.of_nat (length (yielded (get_hotelitems_from_soup soup
                                 (SearchConfig.url search_config))))
  /\ length (yielded (get_hotelitems_from_soup soup (SearchConfig.url search_config)))
     = length (property_cards soup)
  /\ Z.of_nat (size (DataStore.data data_store'))
     = Z.of_nat (size (DataStore.data data_store))
       + Result.num_excluded result + Z.of_nat (length (Result.hotelitems result)).
Proof.
  intros Hsoup Hrun.
  apply get_new_hotelitems_Return in Hrun
    as (exclude_patterns & soup' & _ & Hsoup' & Hrun).
  rewrite Hsoup in Hsoup'. injection Hsoup' as <-.
  pose proof (async_for_raised exclude_patterns
                (get_hotelitems_from_soup soup (SearchConfig.url search_config))
                data_store (Result_init search_config)) as Hraised.
  rewrite Hrun in Hraised. simpl in Hraised.
  pose proof (async_for_counts _ _ _ _ _ _ Hrun) as [Hsum Hsize]. simpl in *.
  split; [lia|]. split; [by apply hotelitems_of_cards_length|]. lia.
Qed.

(** C9, as the code has it: on a page with a property card that lacks a
    required element, extraction does not skip the card; the generator
    raises at the first such card, after yielding the items of the cards
    before it, and the run raises the same exception without returning a
    result, with the store holding the unseen titles among those items. *)
Theorem C9_extraction_stops_at_first_defect search_config filter_config data_store
    exclude_patterns soup :
  compile_patterns re_compile (FilterConfig.exclude_patterns filter_config)
  = Return exclude_patterns ->
  get_soup (SearchConfig.url search_config) = Return soup ->
  Exists (fun card => has_required_fields card = false) (property_cards soup) ->
  exists good bad rest items e,
    property_cards soup = good ++ bad :: rest
    /\ Forall (fun card => has_required_fields card = true) good
    /\ has_required_fields bad = false
    /\ Forall2 (fun card item => hotelitem_of_card card = Return item) good items
    /\ hotelitem_of_card bad = Raise e
    /\ yielded (get_hotelitems_from_soup soup (SearchConfig.url search_config))
       = items
    /\ raised (get_hotelitems_from_soup soup (SearchConfig.url search_config))
       = Some e
    /\ exists data_store',
        get_new_hotelitems re_compile re_search get_soup search_config filter_config
          data_store = (data_store', Raise e)
        /\ DataStore.path data_store' = DataStore.path data_store
        /\ forall title,
             DataStore.data data_store' !! title
             = match DataStore.data data_store !! title with
               | Some known => Some known
               | None => first_with_title title items
               end.
Proof.
  intros Hcompile Hsoup Hdefect.
  destruct (first_defective_card _ Hdefect) as (good & bad & rest & Hcards & Hgood & Hbad).
  destruct (hotelitems_of_good_cards good Hgood) as [items Hitems].
  destruct (hotelitem_of_card_Raise bad Hbad) as [e He].
  exists good, bad, rest, items, e.
  destruct (hotelitems_of_cards_raise good bad rest items e Hitems He)
    as [Hyielded Hraised].
  do 5 (split; [done|]).
  unfold get_hotelitems_from_soup. rewrite Hcards.
  split; [done|]. split; [done|].
  rewrite (get_new_hotelitems_run _ _ _ _ _ Hcompile Hsoup).
  unfold get_hotelitems_from_soup. rewrite Hcards.
  set (g := hotelitems_of_cards (good ++ bad :: rest)) in *.
  pose proof (async_for_raised exclude_patterns g data_store
                (Result_init search_config)) as Hout.
  pose proof (async_for_path exclude_patterns g data_store
                (Result_init search_config)) as Hpath.
  pose proof (async_for_data_lookup exclude_patterns g data_store
                (Result_init search_config)) as Hdata.
  destruct (async_for _ _ _ _ _) as [data_store' [result|e']]; simpl in *.
  - congruence.
  - exists data_store'. rewrite Hraised in Hout. injection Hout as ->.
    split; [done|]. split; [done|]. intros title. by rewrite Hdata, Hyielded.
Qed.

End DiscoveryProperties.

(** ** Properties of the store *)

Lemma hotelitem_of_kwargs_asdict (hotelitem : HotelItem) :
  hotelitem_of_kwargs (asdict hotelitem) = Some hotelitem.
Proof. destruct hotelitem as [url title price]. vm_compute. reflexivity. Qed.

(** What [close] writes, [open] reads back. *)
Lemma hotelitems_of_members_asdict (data : gmap string HotelItem) :
  hotelitems_of_members (asdict <$> data) = Return data.
Proof.
  unfold hotelitems_of_members. case_decide as Hall.
  - f_equal. apply map_eq. intros title.
    rewrite lookup_omap, lookup_fmap.
    destruct (data !! title) as [hotelitem|]; simpl; [|done].
    apply hotelitem_of_kwargs_asdict.
  - exfalso. apply Hall. intros title value.
    rewrite lookup_fmap. destruct (data !! title) as [hotelitem|]; simpl; [|done].
    intros [= <-]. rewrite hotelitem_of_kwargs_asdict. by eexists.
Qed.

(** X4: a store that is closed on a path that can be written and then opened
    afresh from that path holds what it held when it was closed. *)
Lemma open_after_close (self : DataStore) (fs : filesystem) :
  open_w_error fs (DataStore.path self) = None ->
  open (DataStore_init (DataStore.path self)) (close self fs).1
  = (self, Return tt).
Proof.
  intros Hwritable. unfold close. rewrite Hwritable. unfold open. simpl.
  rewrite lookup_insert_eq, hotelitems_of_members_asdict. by destruct self.
Qed.

(** Opening leaves any store as it is when its file is missing. *)
Lemma open_missing_file (self : DataStore) (fs : filesystem) :
  files fs !! DataStore.path self = None -> open self fs = (self, Return tt).
Proof. intros Hmissing. unfold open. by rewrite Hmissing. Qed.

(** C6: opening a store whose file does not exist raises nothing and
    gives the empty dictionary; closing the store later, on a path that
    can be written, puts at that path, whether or not a file was there,
    the JSON object that holds under every title of the store the object
    with the url, title and price of its item, and nothing else. *)
Theorem C6_missing_file_then_close (path : string) (fs fs' : filesystem)
    (data : gmap string HotelItem) :
  files fs !! path = None ->
  open_w_error fs' path = None ->
  (open (DataStore_init path) fs).2 = Return tt
  /\ DataStore.data (open (DataStore_init path) fs).1 = ∅
  /\ (close (DataStore.mk path data) fs').2 = Return tt
  /\ files (close (DataStore.mk path data) fs').1 !! path
     = Some (JsonFile (asdict <$> data))
  /\ (forall other, other <> path ->
        files (close (DataStore.mk path data) fs').1 !! other = files fs' !! other)
  /\ (forall title,
        (asdict <$> data) !! title
        = match data !! title with
          | Some hotelitem =>
              Some {[ "url" := HotelItem.url hotelitem;
                      "title" := HotelItem.title hotelitem;
                      "price" := HotelItem.price hotelitem ]}
          | None => None
          end).
Proof.
  intros Hmissing Hwritable.
  rewrite (open_missing_file (DataStore_init path) fs Hmissing).
  unfold close. simpl. rewrite Hwritable. simpl.
  repeat split.
  - apply lookup_insert_eq.
  - intros other Hother. by rewrite lookup_insert_ne.
  - intros title. rewrite lookup_fmap. by destruct (data !! title).
Qed.

(** ** Appending strings *)

Lemma str_app_nil_l (s : string) : EmptyString +:+ s = s.
Proof. reflexivity. Qed.

Lemma str_app_cons (c : ascii) (s t : string) :
  String c s +:+ t = String c (s +:+ t).
Proof. reflexivity. Qed.

Ltac str_simpl :=
  repeat (rewrite str_app_cons || rewrite str_app_nil_l); simpl.

Lemma str_app_nil_r (s : string) : s +:+ EmptyString = s.
Proof. induction s as [|c s IH]; str_simpl; [done | by rewrite IH]. Qed.

Lemma str_app_assoc (a b c : string) : (a +:+ b) +:+ c = a +:+ (b +:+ c).
Proof. induction a as [|x a IH]; str_simpl; [done | by rewrite IH]. Qed.

(** ** Properties of the notifier *)

Section NotifierProperties.

Variable post : gmap string pyval -> outcome unit.
Variable goes_out : nat -> bool.

Lemma has_hotelitems_cons (result : Result) :
  has_hotelitems result = true ->
  exists first others, Result.hotelitems result = first :: others.
Proof.
  unfold has_hotelitems. destruct (Result.hotelitems result) as [|first others].
  - done.
  - intros _. by exists first, others.
Qed.

(** The constructor of the configuration fails with [TypeError] only. *)
Lemma PushoverConfig_of_kwargs_Raise config_dict e :
  PushoverConfig_of_kwargs config_dict = Raise e -> e = TypeError.
Proof.
  unfold PushoverConfig_of_kwargs. case_bool_decide; [|by intros [= <-]].
  destruct (config_dict !! "token"); [|by intros [= <-]].
  destruct (config_dict !! "user"); [done | by intros [= <-]].
Qed.

(** The request of a result with items, under a configuration whose
    parameters can be built. *)
Lemma notification_params_message config params result first others :
  to_params config = Return params ->
  Result.hotelitems result = first :: others ->
  exists request,
    notification_params config result = Return request
    /\ request !! "message"
       = Some (PyStr (message_text (S (length others))
                        (SearchConfig.name (Result.search_config result))
                        (HotelItem.url first) (HotelItem.title first))).
Proof.
  intros Hparams Hitems. unfold notification_params, message.
  rewrite Hparams, Hitems. simpl. eexists. split; [done|].
  rewrite lookup_insert_ne by done. rewrite lookup_insert_ne by done.
  apply lookup_insert_eq.
Qed.


Lemma filter_sublist {A : Type} (f : A -> bool) (l : list A) :
  List.filter f l `sublist_of` l.
Proof.
  induction l as [|x l IH]; simpl; [done|].
  destruct (f x); [by apply sublist_skip | by apply sublist_cons].
Qed.

(** The requests the tasks of a batch hand over, one for each result with
    items, when the parameters of the configuration can be built. *)
Lemma handed_over_requests config params (results : list Result) (k : nat) :
  to_params config = Return params ->
  Forall (fun result => has_hotelitems result = true) results ->
  Forall2 (fun result request => notification_params config result = Return request)
    results (handed_over k (map (send_notification post config) results)).*2.
Proof.
  intros Hparams Hall. revert k.
  induction Hall as [|result results Hitems _ IH]; intros k; simpl; [constructor|].
  apply has_hotelitems_cons in Hitems as (first & others & Hitems).
  destruct (notification_params_message config params result first others
              Hparams Hitems) as (request & Hrequest & _).
  unfold send_notification at 1. rewrite Hrequest. simpl.
  constructor; [done | apply IH].
Qed.

(** The batch ends normally exactly when every request handed over is
    accepted. *)
Lemma gathered_Return config params (results : list Result) (k : nat) :
  to_params config = Return params ->
  Forall (fun result => has_hotelitems result = true) results ->
  gathered (map (send_notification post config) results) = Return tt
  <-> Forall (fun request => post request = Return tt)
        (handed_over k (map (send_notification post config) results)).*2.
Proof.
  intros Hparams Hall. revert k.
  induction Hall as [|result results Hitems _ IH]; intros k; simpl.
  - split; [constructor | done].
  - apply has_hotelitems_cons in Hitems as (first & others & Hitems).
    destruct (notification_params_message config params result first others
                Hparams Hitems) as (request & Hrequest & _).
    unfold send_notification at 1 3. rewrite Hrequest. simpl.
    rewrite Forall_cons, <- (IH (S k)).
    destruct (post request) as [[]|e]; simpl.
    + split; [done | by intros [_ ?]].
    + split; [done | by intros [? _]].
Qed.

(** What [gather] sends is part of what was handed over, and all of it
    when the batch ends normally. *)
Lemma gather_sent (tasks : list (option (gmap string pyval) * outcome unit)) :
  (gather goes_out tasks).1 `sublist_of` (handed_over 0 tasks).*2
  /\ ((gather goes_out tasks).2 = Return tt <-> gathered tasks = Return tt)
  /\ (gathered tasks = Return tt ->
      (gather goes_out tasks).1 = (handed_over 0 tasks).*2).
Proof.
  unfold gather. destruct (gathered tasks) as [[]|e]; simpl.
  - done.
  - split; [apply fmap_sublist, filter_sublist | done].
Qed.

Lemma filter_has_hotelitems (results : list Result) :
  Forall (fun result => has_hotelitems result = true)
    (List.filter has_hotelitems results).
Proof.
  apply Forall_forall. intros result Hin.
  apply list_elem_of_In, filter_In in Hin. by destruct Hin.
Qed.



(** C8: a configuration without [token], without [user] or with a key that
    is not a field is turned down with [ValueError], and nothing has been
    posted by then. *)
Theorem C8_config_rejected_before_dispatch results config_dict :
  config_dict !! "token" = None
  \/ config_dict !! "user" = None
  \/ (exists key, is_Some (config_dict !! key)
                  /\ key <> "token" /\ key <> "user" /\ key <> "device") ->
  send_notifications post goes_out results config_dict = ([], Raise ValueError).
Proof.
  intros Hbad.
  assert (PushoverConfig_of_kwargs config_dict = Raise TypeError) as Hraise.
  { unfold PushoverConfig_of_kwargs. case_bool_decide as Hdom; [|done].
    destruct Hbad as [-> | [Huser | (key & Hkey & Ht & Hu & Hd)]].
    - done.
    - rewrite Huser. by destruct (config_dict !! "token").
    - apply elem_of_dom in Hkey. apply Hdom in Hkey.
      rewrite !elem_of_union, !elem_of_singleton in Hkey.
      destruct Hkey as [[Hkey | Hkey] | Hkey]; congruence. }
  unfold send_notifications. by rewrite Hraise.
Qed.

End NotifierProperties.

(** ** The statements at concrete inputs *)

Lemma defective_page_cards :
  property_cards defective_page
  = [property_card "/hotel/studio-flat" "Studio Flat" "$ 80"]
    ++ card_without_price :: [property_card "/hotel/cozy-loft" "Cozy Loft" "$ 100"].
Proof. vm_compute. reflexivity. Qed.

Lemma defective_page_run :
  get_new_hotelitems literal_compile literal_search (serve defective_page)
    example_search (FilterConfig.mk ["loft"]) example_store
  = (DataStore.mk "datastore.json" {[ "Studio Flat" := studio_flat ]},
     Raise IndexError).
Proof. vm_compute. reflexivity. Qed.

Lemma defective_page_has_defect :
  Exists (fun card => has_required_fields card = false)
    (property_cards defective_page).
Proof.
  rewrite defective_page_cards. apply Exists_app. right. apply Exists_cons_hd.
  vm_compute. reflexivity.
Qed.

(** C9, as stated, fails: on [defective_page] the second card has no price
    element, yet the item of the first card is yielded, and stored by the
    run, before the extraction raises. *)
Lemma C9_partial_results_counterexample :
  ~ no_partial_results
  /\ hotelitem_of_card card_without_price = Raise IndexError
  /\ get_hotelitems_from_soup defective_page "u"
     = Yield studio_flat (Raising IndexError)
  /\ DataStore.data
       (get_new_hotelitems literal_compile literal_search (serve defective_page)
          example_search (FilterConfig.mk ["loft"]) example_store).1
     !! "Studio Flat" = Some studio_flat.
Proof.
  split; [|split; [|split]].
  - intros Hclaim. specialize (Hclaim defective_page "u").
    assert (yielded (get_hotelitems_from_soup defective_page "u") = [studio_flat])
      as Hyielded by (vm_compute; reflexivity).
    rewrite Hclaim in Hyielded; [done|]. exact defective_page_has_defect.
  - vm_compute. reflexivity.
  - vm_compute. reflexivity.
  - rewrite defective_page_run. vm_compute. reflexivity.
Qed.

Lemma two_card_page_run :
  get_new_hotelitems literal_compile literal_search (serve two_card_page)
    example_search (FilterConfig.mk ["loft"]) example_store
  = (example_store_after, Return (Result.mk example_search 0 1 [studio_flat])).
Proof. vm_compute. reflexivity. Defined.

Lemma C1_stored_before_filtering_witness :
  compile_patterns literal_compile ["loft"] = Return ["loft"]
  /\ serve two_card_page (SearchConfig.url example_search) = Return two_card_page
  /\ get_new_hotelitems literal_compile literal_search (serve two_card_page)
       example_search (FilterConfig.mk ["loft"]) example_store
     = (example_store_after, Return (Result.mk example_search 0 1 [studio_flat]))
  /\ cozy_loft ∈ yielded (get_hotelitems_from_soup two_card_page
                            (SearchConfig.url example_search))
  /\ is_Some (first_match literal_search ["loft"] "Cozy Loft")
  /\ is_Some (DataStore.data example_store_after !! "Cozy Loft")
  /\ cozy_loft ∉ [studio_flat].
Proof.
  assert (compile_patterns literal_compile ["loft"] = Return ["loft"]) as H1
    by reflexivity.
  assert (serve two_card_page (SearchConfig.url example_search) = Return two_card_page)
    as H2 by reflexivity.
  assert (cozy_loft ∈ yielded (get_hotelitems_from_soup two_card_page
                                 (SearchConfig.url example_search))) as H4.
  { apply list_elem_of_In. vm_compute. left. reflexivity. }
  assert (is_Some (first_match literal_search ["loft"] "Cozy Loft")) as H5.
  { vm_compute. eexists. reflexivity. }
  destruct (C1_stored_before_filtering literal_compile literal_search
              (serve two_card_page) example_search (FilterConfig.mk ["loft"])
              example_store example_store_after
              (Return (Result.mk example_search 0 1 [studio_flat]))
              ["loft"] two_card_page cozy_loft H1 H2 two_card_page_run H4)
    as [_ Hrun].
  destruct (Hrun H5) as [Hstored Hnew].
  exact (conj H1 (conj H2 (conj two_card_page_run (conj H4 (conj H5
           (conj Hstored (Hnew _ eq_refl))))))).
Defined.

Lemma same_title_page_run :
  get_new_hotelitems literal_compile literal_search (serve same_title_page)
    example_search (FilterConfig.mk []) example_store
  = (DataStore.mk "datastore.json" {[ "Cozy Loft" := cozy_loft ]},
     Return (Result.mk example_search 1 0 [cozy_loft])).
Proof. vm_compute. reflexivity. Defined.

Lemma C2_known_title_skipped_witness :
  contains (HotelItem.title studio_flat) example_store_after = true
  /\ classify literal_search ["loft"] example_store_after
       (Result_init example_search) studio_flat
     = (example_store_after, Result.mk example_search 1 0 [])
  /\ yielded (get_hotelitems_from_soup same_title_page
                (SearchConfig.url example_search))
     = [] ++ cozy_loft :: [] ++ cozy_loft_again :: []
  /\ HotelItem.title cozy_loft_again = HotelItem.title cozy_loft
  /\ cozy_loft_again <> cozy_loft
  /\ DataStore.data (DataStore.mk "datastore.json" {[ "Cozy Loft" := cozy_loft ]})
       !! "Cozy Loft" = Some cozy_loft
  /\ cozy_loft_again ∉ [cozy_loft].
Proof.
  assert (contains (HotelItem.title studio_flat) example_store_after = true) as H1
    by (vm_compute; reflexivity).
  assert (yielded (get_hotelitems_from_soup same_title_page
                     (SearchConfig.url example_search))
          = [] ++ cozy_loft :: [] ++ cozy_loft_again :: []) as H2
    by (vm_compute; reflexivity).
  assert (HotelItem.title cozy_loft_again = HotelItem.title cozy_loft) as H3
    by reflexivity.
  assert (cozy_loft_again <> cozy_loft) as H4 by discriminate.
  destruct (C2_known_title_skipped literal_compile literal_search
              (serve same_title_page)) as [Hstep Hrun].
  destruct (Hstep ["loft"] example_store_after (Result_init example_search)
              studio_flat H1) as [Hstep' _].
  destruct (Hrun example_search (FilterConfig.mk []) example_store _ _
              same_title_page [] cozy_loft [] cozy_loft_again []
              eq_refl same_title_page_run H2 (Forall_nil_2 _) H3 H4)
    as [Hkept Hnew].
  exact (conj H1 (conj Hstep' (conj H2 (conj H3 (conj H4 (conj Hkept Hnew)))))).
Defined.


Lemma C4_second_run_idempotent_witness :
  get_new_hotelitems literal_compile literal_search (serve two_card_page)
    example_search (FilterConfig.mk ["loft"]) example_store
  = (example_store_after, Return (Result.mk example_search 0 1 [studio_flat]))
  /\ get_new_hotelitems literal_compile literal_search (serve two_card_page)
       example_search (FilterConfig.mk ["loft"]) example_store_after
     = (example_store_after, Return (Result.mk example_search 2 0 [])).
Proof.
  split; [exact two_card_page_run|].
  exact (C4_second_run_idempotent literal_compile literal_search
           (serve two_card_page) example_search (FilterConfig.mk ["loft"])
           example_store example_store_after _ two_card_page_run).
Defined.

Lemma C5_cozy_loft_example_witness :
  literal_compile "loft" = Some "loft"
  /\ literal_search "loft" "Cozy Loft" = true
  /\ literal_search "loft" "Studio Flat" = false
  /\ get_hotelitems_from_soup two_card_page (SearchConfig.url example_search)
     = Yield cozy_loft (Yield studio_flat StopAsyncIteration)
  /\ DataStore.data example_store = ∅
  /\ exists data_store',
       get_new_hotelitems literal_compile literal_search (serve two_card_page)
         example_search (FilterConfig.mk ["loft"]) example_store
       = (data_store', Return (Result.mk example_search 0 1 [studio_flat]))
       /\ DataStore.data data_store'
          = <["Studio Flat" := studio_flat]> (<["Cozy Loft" := cozy_loft]> ∅)
       /\ dom (DataStore.data data_store')
          = ({[ "Cozy Loft"; "Studio Flat" ]} : gset string).
Proof.
  assert (literal_compile "loft" = Some "loft") as H1 by reflexivity.
  assert (literal_search "loft" "Cozy Loft" = true) as H2 by (vm_compute; reflexivity).
  assert (literal_search "loft" "Studio Flat" = false) as H3
    by (vm_compute; reflexivity).
  assert (get_hotelitems_from_soup two_card_page (SearchConfig.url example_search)
          = Yield cozy_loft (Yield studio_flat StopAsyncIteration)) as H4
    by (vm_compute; reflexivity).
  assert (DataStore.data example_store = ∅) as H5 by reflexivity.
  exact (conj H1 (conj H2 (conj H3 (conj H4 (conj H5
           (C5_cozy_loft_example literal_compile literal_search
              (serve two_card_page) example_search example_store two_card_page
              "loft" cozy_loft studio_flat H1 H2 H3 eq_refl H4 eq_refl eq_refl
              H5)))))).
Defined.

Lemma C6_missing_file_then_close_witness :
  files empty_filesystem !! "datastore.json" = None
  /\ open_w_error empty_filesystem "datastore.json" = None
  /\ (open (DataStore_init "datastore.json") empty_filesystem).2 = Return tt
  /\ DataStore.data (open (DataStore_init "datastore.json") empty_filesystem).1 = ∅
  /\ files (close example_store_after empty_filesystem).1 !! "datastore.json"
     = Some (JsonFile (asdict <$> DataStore.data example_store_after)).
Proof.
  assert (files empty_filesystem !! "datastore.json" = None) as H1 by reflexivity.
  assert (open_w_error empty_filesystem "datastore.json" = None) as H2 by reflexivity.
  destruct (C6_missing_file_then_close "datastore.json" empty_filesystem
              empty_filesystem (DataStore.data example_store_after) H1 H2)
    as (Hopen & Hempty & _ & Hfile & _).
  exact (conj H1 (conj H2 (conj Hopen (conj Hempty Hfile)))).
Defined.


Lemma C8_config_rejected_before_dispatch_witness :
  ({[ "user" := PyStr "user-key" ]} : gmap string pyval) !! "token" = None
  /\ send_notifications accept none_goes_out example_results
       {[ "user" := PyStr "user-key" ]}
     = ([], Raise ValueError).
Proof.
  assert (({[ "user" := PyStr "user-key" ]} : gmap string pyval) !! "token" = None)
    as H1 by reflexivity.
  exact (conj H1 (C8_config_rejected_before_dispatch accept none_goes_out
                    example_results {[ "user" := PyStr "user-key" ]}
                    (or_introl H1))).
Defined.

Lemma C9_extraction_stops_at_first_defect_witness :
  compile_patterns literal_compile ["loft"] = Return ["loft"]
  /\ serve defective_page (SearchConfig.url example_search) = Return defective_page
  /\ Exists (fun card => has_required_fields card = false)
       (property_cards defective_page)
  /\ exists good bad rest items e,
       property_cards defective_page = good ++ bad :: rest
       /\ Forall (fun card => has_required_fields card = true) good
       /\ has_required_fields bad = false
       /\ Forall2 (fun card item => hotelitem_of_card card = Return item) good items
       /\ hotelitem_of_card bad = Raise e
       /\ yielded (get_hotelitems_from_soup defective_page
                     (SearchConfig.url example_search)) = items
       /\ raised (get_hotelitems_from_soup defective_page
                    (SearchConfig.url example_search)) = Some e
       /\ exists data_store',
           get_new_hotelitems literal_compile literal_search (serve defective_page)
             example_search (FilterConfig.mk ["loft"]) example_store
           = (data_store', Raise e)
           /\ DataStore.path data_store' = DataStore.path example_store
           /\ forall title,
                DataStore.data data_store' !! title
                = match DataStore.data example_store !! title with
                  | Some known => Some known
                  | None => first_with_title title items
                  end.
Proof.
  exact (conj eq_refl (conj eq_refl (conj defective_page_has_defect
           (C9_extraction_stops_at_first_defect literal_compile literal_search
              (serve defective_page) example_search (FilterConfig.mk ["loft"])
              example_store ["loft"] defective_page
              eq_refl eq_refl defective_page_has_defect)))).
Defined.

Lemma C10_tallies_partition_witness :
  serve two_card_page (SearchConfig.url example_search) = Return two_card_page
  /\ get_new_hotelitems literal_compile literal_search (serve two_card_page)
       example_search (FilterConfig.mk ["loft"]) example_store
     = (example_store_after, Return (Result.mk example_search 0 1 [studio_flat]))
  /\ 0 + 1 + Z.of_nat (length [studio_flat])
     = Z.of_nat (length (yielded (get_hotelitems_from_soup two_card_page
                                    (SearchConfig.url example_search))))
  /\ length (yielded (get_hotelitems_from_soup two_card_page
                        (SearchConfig.url example_search)))
     = length (property_cards two_card_page)
  /\ Z.of_nat (size (DataStore.data example_store_after))
     = Z.of_nat (size (DataStore.data example_store)) + 1
       + Z.of_nat (length [studio_flat]).
Proof.
  exact (conj eq_refl (conj two_card_page_run
           (C10_tallies_partition literal_compile literal_search
              (serve two_card_page) example_search (FilterConfig.mk ["loft"])
              example_store example_store_after _ two_card_page eq_refl
              two_card_page_run))).
Defined.

(** ** Further properties: strings *)

Lemma str_rev_onto_app (s acc : string) : str_rev_onto s acc = str_rev s +:+ acc.
Proof.
  unfold str_rev. revert acc. induction s as [|c s IH]; intros acc; simpl; [done|].
  rewrite (IH (String c acc)), (IH (String c EmptyString)).
  by rewrite str_app_assoc.
Qed.

Lemma str_rev_app (a b : string) : str_rev (a +:+ b) = str_rev b +:+ str_rev a.
Proof.
  induction a as [|c a IH].
  - change (str_rev b = str_rev b +:+ EmptyString). by rewrite str_app_nil_r.
  - change (str_rev_onto (a +:+ b) (String c EmptyString)
            = str_rev b +:+ str_rev_onto a (String c EmptyString)).
    by rewrite (str_rev_onto_app (a +:+ b)), (str_rev_onto_app a), IH,
      str_app_assoc.
Qed.

Lemma str_rev_involutive (s : string) : str_rev (str_rev s) = s.
Proof.
  induction s as [|c s IH]; [done|].
  unfold str_rev at 2. simpl. rewrite str_rev_onto_app, str_rev_app, IH. done.
Qed.

Lemma all_chars_app f (a b : string) :
  all_chars f (a +:+ b) = all_chars f a && all_chars f b.
Proof. induction a as [|c a IH]; str_simpl; [done|]. by rewrite IH, andb_assoc. Qed.

Lemma all_chars_rev f (s : string) : all_chars f (str_rev s) = all_chars f s.
Proof.
  induction s as [|c s IH]; [done|].
  unfold str_rev. simpl. rewrite str_rev_onto_app, all_chars_app, IH. simpl.
  rewrite andb_true_r. apply andb_comm.
Qed.

Lemma has_nbsp_app (a b : string) : has_nbsp (a +:+ b) = has_nbsp a || has_nbsp b.
Proof. induction a as [|c a IH]; str_simpl; [done|]. by rewrite IH, orb_assoc. Qed.

Lemma lstrip_split (s : string) :
  exists ws, s = ws +:+ lstrip s /\ all_chars isspace ws = true.
Proof.
  induction s as [|c s (ws & Hs & Hws)]; simpl.
  - by exists EmptyString.
  - destruct (isspace c) eqn:Hc.
    + exists (String c ws). str_simpl. rewrite Hc, Hws. split; [by rewrite <- Hs | done].
    + by exists EmptyString.
Qed.

Lemma lstrip_no_leading (s : string) : starts_with_space (lstrip s) = false.
Proof.
  induction s as [|c s IH]; simpl; [done|].
  destruct (isspace c) eqn:Hc; [done|]. simpl. done.
Qed.

Lemma lstrip_id (s : string) : starts_with_space s = false -> lstrip s = s.
Proof. destruct s as [|c s]; simpl; [done|]. by intros ->. Qed.

Lemma rstrip_split (s : string) :
  exists ws, s = rstrip s +:+ ws /\ all_chars isspace ws = true.
Proof.
  destruct (lstrip_split (str_rev s)) as (ws & Hs & Hws).
  exists (str_rev ws). split; [|by rewrite all_chars_rev].
  unfold rstrip. rewrite <- str_rev_app, <- Hs. by rewrite str_rev_involutive.
Qed.

Lemma rstrip_no_trailing (s : string) : ends_with_space (rstrip s) = false.
Proof.
  unfold ends_with_space, rstrip. rewrite str_rev_involutive.
  apply lstrip_no_leading.
Qed.

Lemma rstrip_id (s : string) : ends_with_space s = false -> rstrip s = s.
Proof.
  unfold ends_with_space, rstrip. intros Hs.
  by rewrite (lstrip_id _ Hs), str_rev_involutive.
Qed.

Lemma rstrip_keeps_start (s : string) :
  starts_with_space s = false -> starts_with_space (rstrip s) = false.
Proof.
  destruct (rstrip_split s) as (ws & Hs & _).
  destruct (rstrip s) as [|c r]; [done|].
  rewrite Hs. str_simpl. done.
Qed.

Lemma strip_split (s : string) :
  exists before after,
    s = before +:+ strip s +:+ after
    /\ all_chars isspace before = true
    /\ all_chars isspace after = true.
Proof.
  destruct (lstrip_split s) as (before & Hs & Hbefore).
  destruct (rstrip_split (lstrip s)) as (after & Hl & Hafter).
  exists before, after. unfold strip. by rewrite <- Hl, <- Hs.
Qed.

Lemma strip_no_leading (s : string) : starts_with_space (strip s) = false.
Proof. unfold strip. apply rstrip_keeps_start, lstrip_no_leading. Qed.

Lemma strip_no_trailing (s : string) : ends_with_space (strip s) = false.
Proof. unfold strip. apply rstrip_no_trailing. Qed.

(** [strip] takes whitespace, and nothing else, off both ends, and leaves
    none there; stripping again changes nothing. *)
Theorem strip_spec (s : string) :
  (exists before after,
     s = before +:+ strip s +:+ after
     /\ all_chars isspace before = true
     /\ all_chars isspace after = true)
  /\ starts_with_space (strip s) = false
  /\ ends_with_space (strip s) = false
  /\ strip (strip s) = strip s.
Proof.
  split; [apply strip_split|].
  split; [apply strip_no_leading|]. split; [apply strip_no_trailing|].
  unfold strip at 1.
  by rewrite (lstrip_id _ (strip_no_leading s)), (rstrip_id _ (strip_no_trailing s)).
Qed.

Lemma replace_nbsp_no_nbsp (s : string) : has_nbsp (replace_nbsp s) = false.
Proof.
  induction s as [|c s IH]; simpl; [done|]. rewrite IH, orb_false_r.
  destruct (N_of_ascii c =? 160)%N eqn:Hc; [done | exact Hc].
Qed.

Lemma strip_no_nbsp (s : string) : has_nbsp s = false -> has_nbsp (strip s) = false.
Proof.
  destruct (strip_split s) as (before & after & Hs & _ & _).
  intros Hnone. rewrite Hs, !has_nbsp_app in Hnone.
  apply orb_false_elim in Hnone as [_ Hnone].
  by apply orb_false_elim in Hnone as [Hnone _].
Qed.

(** ** Further properties: the extractor *)

(** X1: the title and the price of an extracted item have no whitespace at
    either end, and the price holds no no-break space. *)
Theorem extracted_fields_stripped (card : PageElement) (item : HotelItem) :
  hotelitem_of_card card = Return item ->
  starts_with_space (HotelItem.title item) = false
  /\ ends_with_space (HotelItem.title item) = false
  /\ starts_with_space (HotelItem.price item) = false
  /\ ends_with_space (HotelItem.price item) = false
  /\ has_nbsp (HotelItem.price item) = false.
Proof.
  unfold hotelitem_of_card.
  destruct (find "h3" card) as [h3|]; simpl; [|done].
  destruct (find "a" h3) as [a|]; simpl; [|done].
  destruct (getitem "href" a) as [href|]; simpl; [|done].
  destruct (find "div" h3) as [div|]; simpl; [|done].
  destruct (head _) as [span|]; simpl; [|done].
  intros [= <-]. simpl.
  split; [apply strip_no_leading|]. split; [apply strip_no_trailing|].
  split; [apply strip_no_leading|]. split; [apply strip_no_trailing|].
  apply strip_no_nbsp, replace_nbsp_no_nbsp.
Qed.

Lemma extracted_fields_stripped_witness :
  hotelitem_of_card
    (property_card "/hotel/cozy-loft" (newline +:+ "  Cozy Loft ")
       ("$" +:+ nbsp +:+ "100")) = Return cozy_loft
  /\ starts_with_space (HotelItem.title cozy_loft) = false
  /\ ends_with_space (HotelItem.title cozy_loft) = false
  /\ starts_with_space (HotelItem.price cozy_loft) = false
  /\ ends_with_space (HotelItem.price cozy_loft) = false
  /\ has_nbsp (HotelItem.price cozy_loft) = false.
Proof.
  assert (hotelitem_of_card
            (property_card "/hotel/cozy-loft" (newline +:+ "  Cozy Loft ")
               ("$" +:+ nbsp +:+ "100")) = Return cozy_loft) as H
    by (vm_compute; reflexivity).
  exact (conj H (extracted_fields_stripped _ _ H)).
Defined.

Lemma hotelitem_of_card_error card e :
  hotelitem_of_card card = Raise e -> extraction_error e = true.
Proof.
  unfold hotelitem_of_card.
  destruct (find "h3" card) as [h3|]; simpl; [|by intros [= <-]].
  destruct (find "a" h3) as [a|]; simpl; [|by intros [= <-]].
  destruct (getitem "href" a) as [href|e'] eqn:Hhref; simpl.
  - destruct (find "div" h3) as [div|]; simpl; [|by intros [= <-]].
    destruct (head _) as [span|]; simpl; [done | by intros [= <-]].
  - intros [= <-]. unfold getitem in Hhref. destruct a as [|name attrs contents].
    + by injection Hhref as <-.
    + destruct (attrs !! "href"); [done|]. by injection Hhref as <-.
Qed.

Lemma has_required_fields_of_Return card item :
  hotelitem_of_card card = Return item -> has_required_fields card = true.
Proof.
  intros Hitem. destruct (has_required_fields card) eqn:Hcard; [done|].
  destruct (hotelitem_of_card_Raise card Hcard) as [e He]. congruence.
Qed.

(** X2: extraction ends without raising exactly when every property card has
    the required elements, and then it has yielded one item per card; when
    it raises, the exception is an [AttributeError], a [TypeError], a
    [KeyError] or an [IndexError]. *)
Theorem extraction_raises_iff_defective (soup : PageElement) (url : string) :
  (raised (get_hotelitems_from_soup soup url) = None
   <-> Forall (fun card => has_required_fields card = true) (property_cards soup))
  /\ (raised (get_hotelitems_from_soup soup url) = None ->
      Forall2 (fun card item => hotelitem_of_card card = Return item)
        (property_cards soup) (yielded (get_hotelitems_from_soup soup url)))
  /\ (forall e, raised (get_hotelitems_from_soup soup url) = Some e ->
                extraction_error e = true).
Proof.
  unfold get_hotelitems_from_soup.
  induction (property_cards soup) as [|card cards (IH1 & IH2 & IH3)]; simpl.
  - split; [done|]. split; [constructor | done].
  - destruct (hotelitem_of_card card) as [item|e] eqn:Hcard; simpl.
    + pose proof (has_required_fields_of_Return _ _ Hcard) as Hreq.
      split; [|split].
      * rewrite IH1. split; [by constructor|]. by intros [_ ?]%Forall_cons.
      * intros Hnone. constructor; [done | by apply IH2].
      * done.
    + split; [|split].
      * split; [done|]. intros [Hreq _]%Forall_cons.
        destruct (hotelitem_of_card_Return _ Hreq) as [item Hitem]. congruence.
      * done.
      * intros e' [= <-]. by eapply hotelitem_of_card_error.
Qed.

Lemma achain_cons {A : Type} (g : AsyncGenerator A) (gs : list (AsyncGenerator A)) :
  achain (g :: gs) = agen_then g (achain gs).
Proof. reflexivity. Qed.

Lemma agen_then_yielded {A : Type} (g k : AsyncGenerator A) :
  yielded (agen_then g k)
  = yielded g ++ match raised g with None => yielded k | Some _ => [] end.
Proof.
  induction g as [|item rest IH|e]; simpl; [done | by rewrite IH | done].
Qed.

Lemma agen_then_raised {A : Type} (g k : AsyncGenerator A) :
  raised (agen_then g k) = match raised g with None => raised k | Some e => Some e end.
Proof. induction g as [|item rest IH|e]; simpl; done. Qed.

(** X3: [achain] yields what its generators yield, one generator after the
    other, for as long as none raises; the first generator that raises
    ends the chain with its exception, and the generators after it are
    never run. *)
Theorem achain_until_first_raise {A : Type}
    (before : list (AsyncGenerator A)) (g : AsyncGenerator A)
    (after : list (AsyncGenerator A)) (e : exn) :
  Forall (fun g' => raised g' = None) before ->
  (yielded (achain before) = concat (map yielded before)
   /\ raised (achain before) = None)
  /\ (raised g = Some e ->
      yielded (achain (before ++ g :: after))
      = concat (map yielded before) ++ yielded g
      /\ raised (achain (before ++ g :: after)) = Some e).
Proof.
  induction 1 as [|g' before Hg' _ [[IHy IHr] IH]].
  - split; [done|]. intros Hg. simpl app. rewrite achain_cons.
    rewrite agen_then_yielded, agen_then_raised, Hg. simpl.
    by rewrite app_nil_r.
  - split.
    + rewrite achain_cons, agen_then_yielded, agen_then_raised, Hg'. simpl.
      by rewrite IHy, IHr.
    + intros Hg. destruct (IH Hg) as [IHy' IHr'].
      simpl app. rewrite achain_cons, agen_then_yielded, agen_then_raised, Hg'.
      simpl. by rewrite IHy', IHr', app_assoc.
Qed.

Lemma achain_until_first_raise_witness :
  Forall (fun g' => raised g' = None) [Yield 1%nat (Yield 2%nat StopAsyncIteration)]
  /\ raised (Yield 3%nat (Raising KeyError)) = Some KeyError
  /\ yielded (achain [Yield 1%nat (Yield 2%nat StopAsyncIteration);
                      Yield 3%nat (Raising KeyError);
                      Yield 4%nat StopAsyncIteration])
     = [1; 2; 3]%nat
  /\ raised (achain [Yield 1%nat (Yield 2%nat StopAsyncIteration);
                     Yield 3%nat (Raising KeyError);
                     Yield 4%nat StopAsyncIteration])
     = Some KeyError.
Proof.
  assert (Forall (fun g' : AsyncGenerator nat => raised g' = None)
            [Yield 1%nat (Yield 2%nat StopAsyncIteration)]) as H1
    by (constructor; [reflexivity | constructor]).
  assert (raised (Yield 3%nat (Raising KeyError)) = Some KeyError) as H2
    by reflexivity.
  destruct (achain_until_first_raise
              [Yield 1%nat (Yield 2%nat StopAsyncIteration)]
              (Yield 3%nat (Raising KeyError))
              [Yield 4%nat StopAsyncIteration] KeyError H1) as [_ Hchain].
  exact (conj H1 (conj H2 (Hchain H2))).
Defined.

Lemma extraction_raises_iff_defective_witness :
  raised (get_hotelitems_from_soup two_card_page "u") = None
  /\ Forall2 (fun card item => hotelitem_of_card card = Return item)
       (property_cards two_card_page)
       (yielded (get_hotelitems_from_soup two_card_page "u"))
  /\ raised (get_hotelitems_from_soup defective_page "u") = Some IndexError
  /\ extraction_error IndexError = true.
Proof.
  assert (raised (get_hotelitems_from_soup two_card_page "u") = None) as H1
    by (vm_compute; reflexivity).
  assert (raised (get_hotelitems_from_soup defective_page "u") = Some IndexError)
    as H2 by (vm_compute; reflexivity).
  destruct (extraction_raises_iff_defective two_card_page "u") as (_ & Hitems & _).
  destruct (extraction_raises_iff_defective defective_page "u") as (_ & _ & Herror).
  exact (conj H1 (conj (Hitems H1) (conj H2 (Herror _ H2)))).
Defined.

(** ** Further properties: the store *)

Lemma open_after_close_witness :
  open_w_error empty_filesystem (DataStore.path example_store_after) = None
  /\ open (DataStore_init "datastore.json")
       (close example_store_after empty_filesystem).1
     = (example_store_after, Return tt).
Proof.
  exact (conj eq_refl (open_after_close example_store_after empty_filesystem eq_refl)).
Defined.

(** [HotelItem] accepts exactly the objects with the fields url, title and
    price, and no other. *)
Lemma hotelitem_of_kwargs_Some (value : gmap string string) (hotelitem : HotelItem) :
  hotelitem_of_kwargs value = Some hotelitem <-> value = asdict hotelitem.
Proof.
  split; [|intros ->; apply hotelitem_of_kwargs_asdict].
  unfold hotelitem_of_kwargs.
  destruct (value !! "url") as [url|] eqn:Hurl; [|done].
  destruct (value !! "title") as [title|] eqn:Htitle; [|done].
  destruct (value !! "price") as [price|] eqn:Hprice; [|done].
  case_bool_decide as Hsize; [|done]. intros [= <-].
  symmetry. apply map_subseteq_size_eq.
  - apply map_subseteq_spec. intros key field. unfold asdict. simpl.
    intros Hfield.
    destruct (decide (key = "url")) as [->|]; [by rewrite lookup_insert_eq in Hfield; simplify_eq|].
    rewrite lookup_insert_ne in Hfield by done.
    destruct (decide (key = "title")) as [->|]; [by rewrite lookup_insert_eq in Hfield; simplify_eq|].
    rewrite lookup_insert_ne in Hfield by done.
    destruct (decide (key = "price")) as [->|]; [by rewrite lookup_singleton_eq in Hfield; simplify_eq|].
    by rewrite lookup_singleton_ne in Hfield.
  - rewrite Hsize. vm_compute. lia.
Qed.

(** X5: opening a store whose file exists loads all of the file or nothing:
    when every member of the file is an object with exactly the fields
    url, title and price, the store holds the entries of the file, and
    only those, whatever it held before; when some member is not, [open]
    raises [TypeError] and the store is as it was. *)
Theorem open_existing_file (self : DataStore) (fs : filesystem)
    (members : gmap string (gmap string string)) :
  files fs !! DataStore.path self = Some (JsonFile members) ->
  ((forall title value, members !! title = Some value ->
                        exists hotelitem, value = asdict hotelitem) ->
   (open self fs).2 = Return tt
   /\ DataStore.path (open self fs).1 = DataStore.path self
   /\ asdict <$> DataStore.data (open self fs).1 = members)
  /\ ((exists title value, members !! title = Some value
                           /\ forall hotelitem, value <> asdict hotelitem) ->
      open self fs = (self, Raise TypeError)).
Proof.
  intros Hfile. unfold open. rewrite Hfile. unfold hotelitems_of_members. split.
  - intros Hall. case_decide as Hdec.
    + simpl. split; [done|]. split; [done|]. apply map_eq. intros title.
      rewrite lookup_fmap, lookup_omap.
      destruct (members !! title) as [value|] eqn:Hvalue; simpl; [|done].
      destruct (Hall _ _ Hvalue) as [hotelitem ->].
      by rewrite hotelitem_of_kwargs_asdict.
    + exfalso. apply Hdec. intros title value Hvalue.
      destruct (Hall _ _ Hvalue) as [hotelitem ->].
      rewrite hotelitem_of_kwargs_asdict. by eexists.
  - intros (title & value & Hvalue & Hbad). case_decide as Hdec; [|done].
    exfalso. destruct (Hdec _ _ Hvalue) as [hotelitem Hitem].
    apply hotelitem_of_kwargs_Some in Hitem. by apply (Hbad hotelitem).
Qed.

Lemma open_existing_file_witness :
  files (close example_store_after empty_filesystem).1
    !! DataStore.path example_store
  = Some (JsonFile (asdict <$> DataStore.data example_store_after))
  /\ (open example_store (close example_store_after empty_filesystem).1).2
     = Return tt
  /\ asdict <$> DataStore.data
                  (open example_store
                     (close example_store_after empty_filesystem).1).1
     = asdict <$> DataStore.data example_store_after.
Proof.
  assert (files (close example_store_after empty_filesystem).1
            !! DataStore.path example_store
          = Some (JsonFile (asdict <$> DataStore.data example_store_after))) as H1
    by (vm_compute; reflexivity).
  destruct (open_existing_file example_store _ _ H1) as [Hgood _].
  assert (forall title value,
            (asdict <$> DataStore.data example_store_after) !! title = Some value ->
            exists hotelitem, value = asdict hotelitem) as H2.
  { intros title value. rewrite lookup_fmap.
    destruct (DataStore.data example_store_after !! title) as [hotelitem|];
      simpl; [|done].
    intros [= <-]. by exists hotelitem. }
  destruct (Hgood H2) as (Hopen & _ & Hdata).
  exact (conj H1 (conj Hopen Hdata)).
Defined.

Lemma open_path (self : DataStore) (fs : filesystem) :
  DataStore.path (open self fs).1 = DataStore.path self.
Proof.
  unfold open. destruct (files fs !! DataStore.path self) as [[members|]|]; try done.
  by destruct (hotelitems_of_members members).
Qed.

(** ** Further properties: the discovery pipeline *)

Section DiscoveryFurther.

Context {pattern : Type}.
Variable re_compile : string -> option pattern.
Variable re_search : pattern -> string -> bool.
Variable get_soup : string -> outcome PageElement.

Implicit Types (exclude_patterns : list pattern) (g : AsyncGenerator HotelItem).
Implicit Types (data_store : DataStore) (result : Result) (hotelitem : HotelItem).

Lemma compile_patterns_rejected (ps : list string) (p : string) :
  p ∈ ps -> re_compile p = None ->
  compile_patterns re_compile ps = Raise re_error.
Proof.
  induction 1 as [p ps|p q ps _ IH]; intros Hp; simpl.
  - by rewrite Hp.
  - destruct (re_compile q); simpl; [|done]. by rewrite (IH Hp).
Qed.

(** X6: a rejected exclude pattern or a failed fetch ends the run before the
    loop: the exception is raised and the store is as it was.  A rejected
    pattern does so whatever the page is. *)
Theorem failure_before_loop_keeps_store search_config filter_config data_store :
  (forall p, p ∈ FilterConfig.exclude_patterns filter_config ->
             re_compile p = None ->
             get_new_hotelitems re_compile re_search get_soup search_config
               filter_config data_store = (data_store, Raise re_error))
  /\ (forall exclude_patterns e,
        compile_patterns re_compile (FilterConfig.exclude_patterns filter_config)
        = Return exclude_patterns ->
        get_soup (SearchConfig.url search_config) = Raise e ->
        get_new_hotelitems re_compile re_search get_soup search_config
          filter_config data_store = (data_store, Raise e)).
Proof.
  split.
  - intros p Hin Hp. unfold get_new_hotelitems.
    by rewrite (compile_patterns_rejected _ _ Hin Hp).
  - intros exclude_patterns e Hcompile Hsoup. unfold get_new_hotelitems.
    by rewrite Hcompile, Hsoup.
Qed.

Lemma store_path_kept search_config filter_config data_store data_store' out :
  get_new_hotelitems re_compile re_search get_soup search_config filter_config
    data_store = (data_store', out) ->
  DataStore.path data_store' = DataStore.path data_store.
Proof.
  unfold get_new_hotelitems.
  destruct (compile_patterns _ _) as [exclude_patterns|]; [|by intros [= <- <-]].
  destruct (get_soup _) as [soup|]; [|by intros [= <- <-]].
  intros Hrun.
  pose proof (async_for_path re_search exclude_patterns
                (achain [get_hotelitems_from_soup soup
                           (SearchConfig.url search_config)])
                data_store (Result_init search_config)) as Hpath.
  by rewrite Hrun in Hpath.
Qed.

(** X7: a run never removes or replaces an entry of the store, and never
    changes its path, however it ends. *)
Theorem store_only_grows search_config filter_config data_store data_store' out :
  get_new_hotelitems re_compile re_search get_soup search_config filter_config
    data_store = (data_store', out) ->
  DataStore.path data_store' = DataStore.path data_store
  /\ DataStore.data data_store ⊆ DataStore.data data_store'.
Proof.
  unfold get_new_hotelitems.
  destruct (compile_patterns _ _) as [exclude_patterns|]; [|by intros [= <- <-]].
  destruct (get_soup _) as [soup|]; [|by intros [= <- <-]].
  intros Hrun. split.
  - pose proof (async_for_path re_search exclude_patterns
                  (achain [get_hotelitems_from_soup soup
                             (SearchConfig.url search_config)])
                  data_store (Result_init search_config)) as Hpath.
    by rewrite Hrun in Hpath.
  - apply map_subseteq_spec. intros title known Hknown.
    by rewrite (async_for_store _ _ _ _ _ _ _ title Hrun), Hknown.
Qed.

Lemma async_for_new_sublist exclude_patterns g data_store result data_store' result' :
  async_for re_search exclude_patterns g data_store result
  = (data_store', Return result') ->
  exists new,
    Result.hotelitems result' = Result.hotelitems result ++ new
    /\ new `sublist_of` yielded g
    /\ NoDup (HotelItem.title <$> new).
Proof.
  revert data_store result.
  induction g as [|hotelitem rest IH|e]; intros data_store result; simpl.
  - intros [= <- <-]. exists []. rewrite app_nil_r. split; [done|].
    split; [done | constructor].
  - destruct (classify _ _ _ _ _) as [data_store1 result1] eqn:Hstep.
    intros Hrun. destruct (IH _ _ Hrun) as (new & Hnew & Hsub & Hdup).
    pose proof (async_for_new_items _ _ _ _ _ _ _ Hrun) as (_ & new' & Hnew' & Hall).
    rewrite Hnew in Hnew'. apply app_inv_head in Hnew'. subst new'.
    pose proof (classify_data_lookup re_search exclude_patterns data_store result
                  hotelitem (HotelItem.title hotelitem)) as Hdata.
    rewrite Hstep in Hdata. simpl in Hdata.
    unfold classify in Hstep. destruct (contains _ data_store) eqn:Hin.
    + injection Hstep as <- <-. exists new. split; [done|].
      split; [by apply sublist_cons | done].
    + destruct (first_match _ _ _); injection Hstep as <- <-; simpl in *.
      * exists new. split; [done|]. split; [by apply sublist_cons | done].
      * exists (hotelitem :: new). rewrite Hnew, <- app_assoc.
        split; [done|]. split; [by apply sublist_skip|].
        simpl. constructor; [|done]. intros Hdupl.
        apply list_elem_of_fmap in Hdupl as (other & Htitle & Hother).
        rewrite Forall_forall in Hall. destruct (Hall _ Hother) as [Hnone _].
        rewrite <- Htitle, Hdata in Hnone.
        destruct (DataStore.data data_store !! HotelItem.title hotelitem);
          [done|]. by rewrite bool_decide_eq_true_2 in Hnone.
  - done.
Qed.

(** X8: the new items of a result come in the order of the page, carry
    pairwise different titles, were unknown to the store before the run,
    and are what the store holds under their titles after it. *)
Theorem new_items_distinct_and_stored search_config filter_config data_store
    data_store' result soup :
  get_soup (SearchConfig.url search_config) = Return soup ->
  get_new_hotelitems re_compile re_search get_soup search_config filter_config
    data_store = (data_store', Return result) ->
  Result.hotelitems result
    `sublist_of` yielded (get_hotelitems_from_soup soup
                            (SearchConfig.url search_config))
  /\ NoDup (HotelItem.title <$> Result.hotelitems result)
  /\ Forall (fun hotelitem =>
               DataStore.data data_store !! HotelItem.title hotelitem = None
               /\ DataStore.data data_store' !! HotelItem.title hotelitem
                  = Some hotelitem)
       (Result.hotelitems result).
Proof.
  intros Hsoup Hrun.
  apply get_new_hotelitems_Return in Hrun
    as (exclude_patterns & soup' & _ & Hsoup' & Hrun).
  rewrite Hsoup in Hsoup'. injection Hsoup' as <-.
  destruct (async_for_new_sublist _ _ _ _ _ _ Hrun) as (new & Hnew & Hsub & Hdup).
  destruct (async_for_new_items _ _ _ _ _ _ _ Hrun) as (_ & new' & Hnew' & Hall).
  simpl in Hnew, Hnew'. rewrite Hnew. rewrite Hnew in Hnew'. subst new'.
  split; [done|]. split; [done|].
  eapply Forall_impl; [exact Hall|]. intros hotelitem (Hnone & _ & Hfirst).
  split; [done|].
  by rewrite (async_for_store _ _ _ _ _ _ _ _ Hrun), Hnone.
Qed.

(** X9: a title that a run has met on its page, whether it was reported,
    excluded or already known, and whether or not the run went on to
    raise, is never reported by a later run on the store it left, whatever
    the search and the exclude patterns of that run are. *)
Theorem seen_titles_never_reported_later search_config1 filter_config1
    search_config2 filter_config2 data_store data_store1 data_store2
    exclude_patterns1 soup1 out1 result2 :
  compile_patterns re_compile (FilterConfig.exclude_patterns filter_config1)
  = Return exclude_patterns1 ->
  get_soup (SearchConfig.url search_config1) = Return soup1 ->
  get_new_hotelitems re_compile re_search get_soup search_config1 filter_config1
    data_store = (data_store1, out1) ->
  get_new_hotelitems re_compile re_search get_soup search_config2 filter_config2
    data_store1 = (data_store2, Return result2) ->
  forall seen reported,
    seen ∈ yielded (get_hotelitems_from_soup soup1
                      (SearchConfig.url search_config1)) ->
    reported ∈ Result.hotelitems result2 ->
    HotelItem.title seen <> HotelItem.title reported.
Proof.
  intros Hcompile1 Hsoup1 Hrun1 Hrun2 seen reported Hseen Hreported Htitle.
  rewrite (get_new_hotelitems_run _ _ _ _ _ _ _ _ Hcompile1 Hsoup1) in Hrun1.
  apply get_new_hotelitems_Return in Hrun2 as (ps2 & soup2 & _ & Hsoup2 & Hrun2).
  destruct (async_for_new_items _ _ _ _ _ _ _ Hrun2) as (_ & new2 & Hnew2 & Hall2).
  simpl in Hnew2. rewrite Hnew2 in Hreported.
  rewrite Forall_forall in Hall2.
  destruct (Hall2 _ Hreported) as (Hnone & _ & _).
  rewrite <- Htitle, (async_for_store _ _ _ _ _ _ _ _ Hrun1) in Hnone.
  destruct (DataStore.data data_store !! HotelItem.title seen); [done|].
  destruct (first_with_title_elem_of _ _ Hseen) as [kept Hkept]. congruence.
Qed.

Lemma async_for_again exclude_patterns g data_store result0 data_store1 result1
    result :
  async_for re_search exclude_patterns g data_store result0
  = (data_store1, Return result1) ->
  async_for re_search exclude_patterns g data_store1 result
  = (data_store1,
     Return (Result.mk (Result.search_config result)
               (Result.num_already_in_datastore result
                + Z.of_nat (length (yielded g)))
               (Result.num_excluded result) (Result.hotelitems result))).
Proof.
  intros Hrun.
  pose proof (async_for_raised re_search exclude_patterns g data_store result0)
    as Hraised.
  rewrite Hrun in Hraised. simpl in Hraised.
  apply async_for_known; [done|].
  apply Forall_forall. intros hotelitem Hin.
  rewrite (async_for_store _ _ _ _ _ _ _ _ Hrun).
  destruct (DataStore.data data_store !! _); [by eexists|].
  by apply first_with_title_elem_of.
Qed.

(** X10: what one invocation wrote, the next one reads: a run inside the
    [with] block of the store that returned a result is followed, on the
    file system it left and with the page unchanged, by a run that finds
    nothing new, excludes nothing, counts every item of the first run as
    known and leaves the file as it is. *)
Theorem second_invocation_finds_nothing (path : string) (fs fs1 : filesystem)
    search_config filter_config result1 :
  with_DataStore path fs
    (get_new_hotelitems re_compile re_search get_soup search_config filter_config)
  = (fs1, Return result1) ->
  with_DataStore path fs1
    (get_new_hotelitems re_compile re_search get_soup search_config filter_config)
  = (fs1,
     Return (Result.mk search_config
               (Result.num_already_in_datastore result1
                + Result.num_excluded result1
                + Z.of_nat (length (Result.hotelitems result1)))
               0 [])).
Proof.
  unfold with_DataStore.
  pose proof (open_path (DataStore_init path) fs) as Hpath0.
  destruct (open (DataStore_init path) fs) as [self [[]|]]; [|done].
  simpl in Hpath0.
  destruct (get_new_hotelitems _ _ _ _ _ self) as [self' ended] eqn:Hbody.
  pose proof Hbody as Hgrow. apply store_path_kept in Hgrow.
  unfold close. rewrite Hgrow, Hpath0.
  destruct (open_w_error fs path) eqn:Hwritable; [done|].
  intros [= <- ->]. simpl.
  unfold open. simpl. rewrite lookup_insert_eq, hotelitems_of_members_asdict.
  replace (DataStore.mk path (DataStore.data self')) with self'
    by (destruct self'; simpl in *; congruence).
  apply get_new_hotelitems_Return in Hbody
    as (exclude_patterns & soup & Hcompile & Hsoup & Hrun).
  rewrite (get_new_hotelitems_run _ _ _ _ _ _ _ _ Hcompile Hsoup).
  rewrite (async_for_again _ _ _ _ _ _ (Result_init search_config) Hrun).
  destruct (async_for_counts _ _ _ _ _ _ _ Hrun) as [Hsum _].
  simpl in *. rewrite Hgrow, Hpath0, Hwritable. simpl.
  rewrite insert_insert_eq, Hsum. reflexivity.
Qed.

Lemma first_with_title_Some (items : list HotelItem) title hotelitem :
  first_with_title title items = Some hotelitem ->
  HotelItem.title hotelitem = title /\ hotelitem ∈ items.
Proof.
  unfold first_with_title. induction items as [|h items IH]; simpl; [done|].
  case_bool_decide as Hh.
  - intros [= <-]. split; [done | left].
  - intros Hfind. destruct (IH Hfind) as [Htitle Hin]. split; [done | by right].
Qed.

(** X11: a run inside the [with] block of the store, on a page with a property
    card that lacks a required element, raises; the file is written all
    the same, and it holds an entry under the title of every item that was
    yielded before the failure, though no result reported them. *)
Theorem items_before_defect_are_persisted (path : string) (fs : filesystem)
    search_config filter_config exclude_patterns soup :
  files fs !! path = None ->
  open_w_error fs path = None ->
  compile_patterns re_compile (FilterConfig.exclude_patterns filter_config)
  = Return exclude_patterns ->
  get_soup (SearchConfig.url search_config) = Return soup ->
  Exists (fun card => has_required_fields card = false) (property_cards soup) ->
  exists e members,
    with_DataStore path fs
      (get_new_hotelitems re_compile re_search get_soup search_config filter_config)
    = ({| files := <[path := JsonFile members]> (files fs);
          open_w_error := open_w_error fs |},
       Raise e)
    /\ Forall (fun hotelitem =>
                 exists kept,
                   members !! HotelItem.title hotelitem = Some (asdict kept)
                   /\ HotelItem.title kept = HotelItem.title hotelitem)
         (yielded (get_hotelitems_from_soup soup (SearchConfig.url search_config))).
Proof.
  intros Hmissing Hwritable Hcompile Hsoup Hdefect.
  destruct (first_defective_card _ Hdefect)
    as (good & bad & rest & Hcards & Hgood & Hbad).
  destruct (hotelitems_of_good_cards good Hgood) as [items Hitems].
  destruct (hotelitem_of_card_Raise bad Hbad) as [e He].
  destruct (hotelitems_of_cards_raise good bad rest items e Hitems He)
    as [_ Hraised].
  rewrite <- Hcards in Hraised.
  unfold with_DataStore.
  rewrite (open_missing_file (DataStore_init path) fs Hmissing).
  rewrite (get_new_hotelitems_run _ _ _ _ _ _ _ _ Hcompile Hsoup).
  set (g := get_hotelitems_from_soup soup (SearchConfig.url search_config)) in *.
  pose proof (async_for_raised re_search exclude_patterns g (DataStore_init path)
                (Result_init search_config)) as Hout.
  pose proof (async_for_path re_search exclude_patterns g (DataStore_init path)
                (Result_init search_config)) as Hpath.
  pose proof (async_for_data_lookup re_search exclude_patterns g
                (DataStore_init path) (Result_init search_config)) as Hdata.
  destruct (async_for _ _ _ _ _) as [self' [result|e']]; simpl in *.
  - unfold g, get_hotelitems_from_soup in Hout. congruence.
  - unfold close. rewrite Hpath, Hwritable.
    exists e', (asdict <$> DataStore.data self'). split; [done|].
    apply Forall_forall. intros hotelitem Hin.
    destruct (first_with_title_elem_of _ _ Hin) as [kept Hkept].
    exists kept. rewrite lookup_fmap, Hdata, lookup_empty, Hkept.
    split; [done|]. by apply first_with_title_Some in Hkept as [? _].
Qed.

End DiscoveryFurther.

Lemma failure_before_loop_keeps_store_witness :
  "(" ∈ ["loft"; "("]
  /\ literal_compile "(" = None
  /\ get_new_hotelitems literal_compile literal_search (serve two_card_page)
       example_search (FilterConfig.mk ["loft"; "("]) example_store_after
     = (example_store_after, Raise re_error)
  /\ compile_patterns literal_compile ["loft"] = Return ["loft"]
  /\ get_new_hotelitems literal_compile literal_search (fun _ => Raise ClientError)
       example_search (FilterConfig.mk ["loft"]) example_store_after
     = (example_store_after, Raise ClientError).
Proof.
  assert ("(" ∈ ["loft"; "("]) as H1 by (right; left).
  assert (literal_compile "(" = None) as H2 by reflexivity.
  assert (compile_patterns literal_compile ["loft"] = Return ["loft"]) as H3
    by reflexivity.
  destruct (failure_before_loop_keeps_store literal_compile literal_search
              (serve two_card_page) example_search
              (FilterConfig.mk ["loft"; "("]) example_store_after) as [Hpattern _].
  destruct (failure_before_loop_keeps_store literal_compile literal_search
              (fun _ => Raise ClientError) example_search
              (FilterConfig.mk ["loft"]) example_store_after) as [_ Hfetch].
  exact (conj H1 (conj H2 (conj (Hpattern _ H1 H2)
           (conj H3 (Hfetch _ ClientError H3 eq_refl))))).
Defined.

Lemma second_search_run :
  get_new_hotelitems literal_compile literal_search serve_two other_search
    (FilterConfig.mk ["loft"]) example_store_after
  = (DataStore.mk "datastore.json"
       (<["Garden Flat" := garden_flat]> (DataStore.data example_store_after)),
     Return (Result.mk other_search 1 0 [garden_flat])).
Proof. vm_compute. reflexivity. Defined.

Lemma first_search_run :
  get_new_hotelitems literal_compile literal_search serve_two example_search
    (FilterConfig.mk ["loft"]) example_store
  = (example_store_after, Return (Result.mk example_search 0 1 [studio_flat])).
Proof. vm_compute. reflexivity. Defined.

Lemma store_only_grows_witness :
  get_new_hotelitems literal_compile literal_search serve_two other_search
    (FilterConfig.mk ["loft"]) example_store_after
  = (DataStore.mk "datastore.json"
       (<["Garden Flat" := garden_flat]> (DataStore.data example_store_after)),
     Return (Result.mk other_search 1 0 [garden_flat]))
  /\ DataStore.data example_store_after
     ⊆ <["Garden Flat" := garden_flat]> (DataStore.data example_store_after).
Proof.
  destruct (store_only_grows literal_compile literal_search serve_two other_search
              (FilterConfig.mk ["loft"]) example_store_after _ _ second_search_run)
    as [_ Hgrow].
  exact (conj second_search_run Hgrow).
Defined.

Lemma new_items_distinct_and_stored_witness :
  serve_two (SearchConfig.url other_search) = Return other_page
  /\ get_new_hotelitems literal_compile literal_search serve_two other_search
       (FilterConfig.mk ["loft"]) example_store_after
     = (DataStore.mk "datastore.json"
          (<["Garden Flat" := garden_flat]> (DataStore.data example_store_after)),
        Return (Result.mk other_search 1 0 [garden_flat]))
  /\ [garden_flat]
       `sublist_of` yielded (get_hotelitems_from_soup other_page
                               (SearchConfig.url other_search))
  /\ NoDup (HotelItem.title <$> [garden_flat])
  /\ Forall (fun hotelitem =>
               DataStore.data example_store_after !! HotelItem.title hotelitem = None
               /\ (<["Garden Flat" := garden_flat]>
                     (DataStore.data example_store_after))
                    !! HotelItem.title hotelitem = Some hotelitem)
       [garden_flat].
Proof.
  assert (serve_two (SearchConfig.url other_search) = Return other_page) as H1
    by (vm_compute; reflexivity).
  exact (conj H1 (conj second_search_run
           (new_items_distinct_and_stored literal_compile literal_search serve_two
              other_search (FilterConfig.mk ["loft"]) example_store_after _ _
              other_page H1 second_search_run))).
Defined.

Lemma seen_titles_never_reported_later_witness :
  compile_patterns literal_compile ["loft"] = Return ["loft"]
  /\ serve_two (SearchConfig.url example_search) = Return two_card_page
  /\ get_new_hotelitems literal_compile literal_search serve_two example_search
       (FilterConfig.mk ["loft"]) example_store
     = (example_store_after, Return (Result.mk example_search 0 1 [studio_flat]))
  /\ get_new_hotelitems literal_compile literal_search serve_two other_search
       (FilterConfig.mk []) example_store_after
     = (DataStore.mk "datastore.json"
          (<["Garden Flat" := garden_flat]> (DataStore.data example_store_after)),
        Return (Result.mk other_search 1 0 [garden_flat]))
  /\ cozy_loft ∈ yielded (get_hotelitems_from_soup two_card_page
                            (SearchConfig.url example_search))
  /\ garden_flat ∈ [garden_flat]
  /\ HotelItem.title cozy_loft <> HotelItem.title garden_flat.
Proof.
  assert (compile_patterns literal_compile ["loft"] = Return ["loft"]) as H1
    by reflexivity.
  assert (serve_two (SearchConfig.url example_search) = Return two_card_page) as H2
    by (vm_compute; reflexivity).
  assert (get_new_hotelitems literal_compile literal_search serve_two other_search
            (FilterConfig.mk []) example_store_after
          = (DataStore.mk "datastore.json"
               (<["Garden Flat" := garden_flat]>
                  (DataStore.data example_store_after)),
             Return (Result.mk other_search 1 0 [garden_flat]))) as H3
    by (vm_compute; reflexivity).
  assert (cozy_loft ∈ yielded (get_hotelitems_from_soup two_card_page
                                 (SearchConfig.url example_search))) as H4.
  { apply list_elem_of_In. vm_compute. left. reflexivity. }
  assert (garden_flat ∈ [garden_flat]) as H5 by left.
  exact (conj H1 (conj H2 (conj first_search_run (conj H3 (conj H4 (conj H5
           (seen_titles_never_reported_later literal_compile literal_search
              serve_two example_search (FilterConfig.mk ["loft"]) other_search
              (FilterConfig.mk []) example_store _ _ ["loft"] two_card_page _ _
              H1 H2 first_search_run H3 cozy_loft garden_flat H4 H5))))))).
Defined.

Lemma first_invocation_run :
  with_DataStore "datastore.json" empty_filesystem
    (get_new_hotelitems literal_compile literal_search (serve two_card_page)
       example_search (FilterConfig.mk ["loft"]))
  = ((close example_store_after empty_filesystem).1,
     Return (Result.mk example_search 0 1 [studio_flat])).
Proof. vm_compute. reflexivity. Defined.

Lemma second_invocation_finds_nothing_witness :
  with_DataStore "datastore.json" empty_filesystem
    (get_new_hotelitems literal_compile literal_search (serve two_card_page)
       example_search (FilterConfig.mk ["loft"]))
  = ((close example_store_after empty_filesystem).1,
     Return (Result.mk example_search 0 1 [studio_flat]))
  /\ with_DataStore "datastore.json" (close example_store_after empty_filesystem).1
       (get_new_hotelitems literal_compile literal_search (serve two_card_page)
          example_search (FilterConfig.mk ["loft"]))
     = ((close example_store_after empty_filesystem).1,
        Return (Result.mk example_search 2 0 [])).
Proof.
  exact (conj first_invocation_run
           (second_invocation_finds_nothing literal_compile literal_search
              (serve two_card_page) "datastore.json" empty_filesystem _
              example_search (FilterConfig.mk ["loft"]) _ first_invocation_run)).
Defined.

Lemma items_before_defect_are_persisted_witness :
  files empty_filesystem !! "datastore.json" = None
  /\ open_w_error empty_filesystem "datastore.json" = None
  /\ compile_patterns literal_compile ["loft"] = Return ["loft"]
  /\ Exists (fun card => has_required_fields card = false)
       (property_cards defective_page)
  /\ exists e members,
       with_DataStore "datastore.json" empty_filesystem
         (get_new_hotelitems literal_compile literal_search (serve defective_page)
            example_search (FilterConfig.mk ["loft"]))
       = ({| files := <["datastore.json" := JsonFile members]>
                        (files empty_filesystem);
             open_w_error := open_w_error empty_filesystem |},
          Raise e)
       /\ Forall (fun hotelitem =>
                    exists kept,
                      members !! HotelItem.title hotelitem = Some (asdict kept)
                      /\ HotelItem.title kept = HotelItem.title hotelitem)
            (yielded (get_hotelitems_from_soup defective_page
                        (SearchConfig.url example_search))).
Proof.
  exact (conj eq_refl (conj eq_refl (conj eq_refl (conj defective_page_has_defect
           (items_before_defect_are_persisted literal_compile literal_search
              (serve defective_page) "datastore.json" empty_filesystem
              example_search (FilterConfig.mk ["loft"]) ["loft"] defective_page
              eq_refl eq_refl eq_refl eq_refl defective_page_has_defect))))).
Defined.

(** ** Further properties: the notifier *)

Lemma join_comma_strings (devices : list string) :
  join_comma (PyStr <$> devices) = Return (String.concat "," devices).
Proof.
  induction devices as [|device devices IH]; [done|].
  destruct devices as [|device' devices]; [done|].
  change (join_comma (PyStr device :: (PyStr <$> (device' :: devices)))
          = Return (device +:+ "," +:+ String.concat "," (device' :: devices))).
  simpl in IH. simpl. by rewrite IH.
Qed.

Lemma join_comma_not_string (value : list pyval) (bad : pyval) :
  bad ∈ value -> (forall s, bad <> PyStr s) -> join_comma value = Raise TypeError.
Proof.
  induction 1 as [bad value|bad first value Hin IH]; intros Hbad.
  - destruct bad; try done. by destruct (Hbad s).
  - destruct first; try done. simpl.
    destruct value as [|second value]; [by apply elem_of_nil in Hin|].
    by rewrite (IH Hbad).
Qed.

(** [",".join] of a list of strings is their concatenation with a comma
    between neighbours; a list with an element that is not a string
    raises [TypeError]. *)
Theorem join_comma_spec :
  (forall devices : list string,
     join_comma (PyStr <$> devices) = Return (String.concat "," devices))
  /\ (forall (value : list pyval) (bad : pyval),
        bad ∈ value -> (forall s, bad <> PyStr s) ->
        join_comma value = Raise TypeError).
Proof. split; [apply join_comma_strings | apply join_comma_not_string]. Qed.

Lemma join_comma_spec_witness :
  PyInt 7 ∈ [PyStr "phone"; PyInt 7]
  /\ join_comma [PyStr "phone"; PyInt 7] = Raise TypeError
  /\ join_comma (PyStr <$> ["phone"; "tablet"]) = Return "phone,tablet".
Proof.
  assert (PyInt 7 ∈ [PyStr "phone"; PyInt 7]) as H1 by (right; left).
  destruct join_comma_spec as [Hjoin Hbad].
  exact (conj H1 (conj (Hbad _ _ H1 (fun s H => eq_ind (PyInt 7)
                                        (fun v => match v with PyInt _ => True
                                                          | _ => False end)
                                        I (PyStr s) H))
                       (Hjoin ["phone"; "tablet"]))).
Defined.

(** X12: for a configuration of the declared types, a string for [token] and
    for [user] and a list of strings for [device], [to_params] never
    raises; it passes on the token and the user unless they are empty,
    gives the devices joined by commas unless there is none, and sets no
    other key. *)
Theorem to_params_of_typed_config (token user : string) (devices : list string) :
  exists params,
    to_params (PushoverConfig.mk (PyStr token) (PyStr user)
                 (PyList (PyStr <$> devices))) = Return params
    /\ params !! "token"
       = (if decide (token = EmptyString) then None else Some (PyStr token))
    /\ params !! "user"
       = (if decide (user = EmptyString) then None else Some (PyStr user))
    /\ params !! "device"
       = (if decide (devices = []) then None
          else Some (PyStr (String.concat "," devices)))
    /\ (forall key, key <> "token" -> key <> "user" -> key <> "device" ->
                    params !! key = None).
Proof.
  unfold to_params, add_param. simpl.
  rewrite join_comma_strings.
  destruct (decide (token = EmptyString)) as [->|Htoken];
    destruct (decide (user = EmptyString)) as [->|Huser];
    destruct (decide (devices = [])) as [->|Hdevices];
    rewrite ?(bool_decide_eq_false_2 (token = EmptyString)) by done;
    rewrite ?(bool_decide_eq_false_2 (user = EmptyString)) by done;
    rewrite ?(bool_decide_eq_false_2 (PyStr <$> devices = [])) by
      (by destruct devices);
    simpl; eexists; (split; [reflexivity|]);
    repeat split; intros; simplify_map_eq; done.
Qed.

Section NotifierFurther.

Variable post : gmap string pyval -> outcome unit.
Variable goes_out : nat -> bool.

Lemma gathered_no_params (config : PushoverConfig) (results : list Result) (e : exn) :
  to_params config = Raise e ->
  gathered (map (send_notification post config) results)
  = match results with [] => Return tt | _ :: _ => Raise e end.
Proof.
  intros Hparams. destruct results as [|result results]; simpl; [done|].
  unfold send_notification, notification_params. by rewrite Hparams.
Qed.

Lemma handed_over_no_params (config : PushoverConfig) (results : list Result)
    (e : exn) (k : nat) :
  to_params config = Raise e ->
  handed_over k (map (send_notification post config) results) = [].
Proof.
  intros Hparams. revert k. induction results as [|result results IH]; intros k;
    simpl; [done|].
  unfold send_notification at 1, notification_params. rewrite Hparams. simpl.
  apply IH.
Qed.

Lemma gather_no_request (config : PushoverConfig) (results : list Result) (e : exn) :
  to_params config = Raise e ->
  gather goes_out (map (send_notification post config) results)
  = ([], match results with [] => Return tt | _ :: _ => Raise e end).
Proof.
  intros Hparams. unfold gather.
  rewrite (gathered_no_params _ _ _ Hparams), (handed_over_no_params _ _ _ _ Hparams).
  by destruct results.
Qed.

(** X13: only the keys of the configuration are checked before the batch: a
    [device] list with an element that is not a string is accepted by
    [PushoverConfig]; then nothing is posted, and the call raises
    [TypeError], not [ValueError], as soon as one result has new items,
    and returns normally when none has. *)
Theorem device_type_is_not_checked (results : list Result) (token user : string)
    (device : list pyval) (bad : pyval) :
  bad ∈ device ->
  (forall s, bad <> PyStr s) ->
  send_notifications post goes_out results
    {[ "token" := PyStr token; "user" := PyStr user; "device" := PyList device ]}
  = ([], if existsb has_hotelitems results then Raise TypeError else Return tt).
Proof.
  intros Hin Hbad.
  assert (PushoverConfig_of_kwargs
            {[ "token" := PyStr token; "user" := PyStr user;
               "device" := PyList device ]}
          = Return (PushoverConfig.mk (PyStr token) (PyStr user) (PyList device)))
    as Hconfig.
  { unfold PushoverConfig_of_kwargs. rewrite bool_decide_eq_true_2.
    - by simplify_map_eq.
    - rewrite !dom_insert_L, dom_singleton_L. set_solver. }
  assert (to_params (PushoverConfig.mk (PyStr token) (PyStr user) (PyList device))
          = Raise TypeError) as Hparams.
  { unfold to_params, add_param. simpl.
    assert (bool_decide (device = []) = false) as ->.
    { apply bool_decide_eq_false_2. intros ->. by apply elem_of_nil in Hin. }
    simpl. rewrite (join_comma_not_string _ _ Hin Hbad).
    by destruct (bool_decide (token = EmptyString)),
                (bool_decide (user = EmptyString)). }
  unfold send_notifications. rewrite Hconfig.
  rewrite (gather_no_request _ _ _ Hparams). f_equal.
  induction results as [|result results IH]; simpl; [done|].
  destruct (has_hotelitems result); simpl; [done | exact IH].
Qed.

(** X14: with a configuration that is accepted and can be encoded, the
    batch has one request to send for each result with new items; it
    returns normally exactly when the transport accepts every one of them,
    and then all of them have been sent.  When a request fails the call
    raises, and what has been sent is some part of them. *)
Theorem batch_succeeds_iff_all_accepted (results : list Result)
    (config_dict : gmap string pyval) (config : PushoverConfig)
    (params : gmap string pyval) :
  PushoverConfig_of_kwargs config_dict = Return config ->
  to_params config = Return params ->
  exists requests,
    Forall2 (fun result request => notification_params config result = Return request)
      (List.filter has_hotelitems results) requests
    /\ ((send_notifications post goes_out results config_dict).2 = Return tt
        <-> Forall (fun request => post request = Return tt) requests)
    /\ ((send_notifications post goes_out results config_dict).2 = Return tt ->
        (send_notifications post goes_out results config_dict).1 = requests)
    /\ (send_notifications post goes_out results config_dict).1
         `sublist_of` requests.
Proof.
  intros Hconfig Hparams. unfold send_notifications. rewrite Hconfig.
  set (tasks := map (send_notification post config)
                  (List.filter has_hotelitems results)).
  exists (handed_over 0 tasks).*2.
  pose proof (filter_has_hotelitems results) as Hall.
  destruct (gather_sent goes_out tasks) as (Hsub & Hended & Hsent).
  split; [by apply (handed_over_requests post config params)|].
  split; [|split; [|done]].
  - rewrite Hended. by apply (gathered_Return post config params).
  - intros Hreturn. apply Hsent. by apply Hended.
Qed.

End NotifierFurther.

Lemma device_type_is_not_checked_witness :
  PyInt 7 ∈ [PyStr "phone"; PyInt 7]
  /\ send_notifications accept none_goes_out example_results
       {[ "token" := PyStr "app-token"; "user" := PyStr "user-key";
          "device" := PyList [PyStr "phone"; PyInt 7] ]}
     = ([], Raise TypeError).
Proof.
  assert (PyInt 7 ∈ [PyStr "phone"; PyInt 7]) as H2 by (right; left).
  exact (conj H2
           (device_type_is_not_checked accept none_goes_out example_results
              "app-token" "user-key" [PyStr "phone"; PyInt 7] (PyInt 7) H2
              (fun s H => eq_ind (PyInt 7)
                            (fun v => match v with PyInt _ => True | _ => False end)
                            I (PyStr s) H))).
Defined.

Lemma batch_succeeds_iff_all_accepted_witness :
  PushoverConfig_of_kwargs example_config_dict = Return example_config
  /\ to_params example_config = Return example_params
  /\ exists requests,
       Forall2 (fun result request =>
                  notification_params example_config result = Return request)
         (List.filter has_hotelitems example_results) requests
       /\ ((send_notifications refuse none_goes_out example_results
              example_config_dict).2 = Return tt
           <-> Forall (fun request => refuse request = Return tt) requests)
       /\ ((send_notifications refuse none_goes_out example_results
              example_config_dict).2 = Return tt ->
           (send_notifications refuse none_goes_out example_results
              example_config_dict).1 = requests)
       /\ (send_notifications refuse none_goes_out example_results
             example_config_dict).1 `sublist_of` requests.
Proof.
  assert (PushoverConfig_of_kwargs example_config_dict = Return example_config) as H1
    by (vm_compute; reflexivity).
  assert (to_params example_config = Return example_params) as H2
    by (vm_compute; reflexivity).
  exact (conj H1 (conj H2
           (batch_succeeds_iff_all_accepted refuse none_goes_out example_results
              example_config_dict example_config example_params H1 H2))).
Defined.

(** ** Further properties: the secrets script *)

Lemma set_secret_Return (field secret : string) (json_data json_data' : pyval) :
  set_secret field secret json_data = Return json_data'
  <-> exists d n p,
        json_data = PyDict d
        /\ d !! "notifications" = Some (PyDict n)
        /\ n !! "pushover" = Some (PyDict p)
        /\ json_data'
           = PyDict (<["notifications" :=
                         PyDict (<["pushover" := PyDict (<[field := PyStr secret]> p)]>
                                 n)]> d).
Proof.
  unfold set_secret, subscript, store_subscript. split.
  - destruct json_data as [| | | | |d]; try done. simpl.
    destruct (d !! "notifications") as [[| | | | |n]|] eqn:Hn; try done. simpl.
    destruct (n !! "pushover") as [[| | | | |p]|] eqn:Hp; try done. simpl.
    intros [= <-]. by exists d, n, p.
  - intros (d & n & p & -> & Hn & Hp & ->). simpl. rewrite Hn. simpl.
    by rewrite Hp.
Qed.

Lemma set_secrets_Return (secret_app_token secret_user_token : string)
    (json_data json_data' : pyval) :
  (json_data1 ← set_secret "token" secret_app_token json_data;
   set_secret "user" secret_user_token json_data1) = Return json_data'
  <-> exists d n p,
        json_data = PyDict d
        /\ d !! "notifications" = Some (PyDict n)
        /\ n !! "pushover" = Some (PyDict p)
        /\ json_data' = document_with_secrets d n p secret_app_token
                          secret_user_token.
Proof.
  split.
  - destruct (set_secret "token" _ json_data) as [json_data1|] eqn:Htoken; [|done].
    simpl. intros Huser.
    apply set_secret_Return in Htoken as (d & n & p & -> & Hn & Hp & ->).
    apply set_secret_Return in Huser as (d1 & n1 & p1 & Hd1 & Hn1 & Hp1 & ->).
    injection Hd1 as <-. rewrite lookup_insert_eq in Hn1. injection Hn1 as <-.
    rewrite lookup_insert_eq in Hp1. injection Hp1 as <-.
    exists d, n, p. split; [done|]. split; [done|]. split; [done|].
    unfold document_with_secrets. by rewrite !insert_insert_eq.
  - intros (d & n & p & -> & Hn & Hp & ->).
    assert (set_secret "token" secret_app_token (PyDict d)
            = Return (PyDict (<["notifications" :=
                                  PyDict (<["pushover" :=
                                              PyDict (<["token" :=
                                                          PyStr secret_app_token]> p)]>
                                          n)]> d))) as ->.
    { apply set_secret_Return. by exists d, n, p. }
    simpl. apply set_secret_Return.
    eexists _, _, _. split; [done|].
    split; [apply lookup_insert_eq|]. split; [apply lookup_insert_eq|].
    unfold document_with_secrets. by rewrite !insert_insert_eq.
Qed.

(** X15: [add_tokens] finishes exactly when [json.load] returns from the
    file an object with an object under notifications and in it an object
    under pushover, both variables are set and the file can be written; the
    file then holds the same document with the two secrets under token and
    user of the pushover settings, and nothing else changed.  On a file
    that reading refuses, [add_tokens] raises what reading raises and
    writes nothing. *)
Theorem add_tokens_sets_secrets (file_path app_token user_token : string)
    (environ : gmap string string) (fs fs' : json_filesystem) :
  (add_tokens file_path app_token user_token environ fs = (fs', Finished)
   <-> exists d n p secret_app_token secret_user_token,
         json_files fs !! file_path = Some (JsonDocument (PyDict d))
         /\ d !! "notifications" = Some (PyDict n)
         /\ n !! "pushover" = Some (PyDict p)
         /\ environ !! app_token = Some secret_app_token
         /\ environ !! user_token = Some secret_user_token
         /\ json_open_w_error fs file_path = None
         /\ fs' = {| json_files :=
                       <[file_path :=
                           JsonDocument (document_with_secrets d n p
                                           secret_app_token secret_user_token)]>
                         (json_files fs);
                     json_open_w_error := json_open_w_error fs |})
  /\ (forall e,
        json_files fs !! file_path = Some (Unloadable e) ->
        add_tokens file_path app_token user_token environ fs
        = (fs, RaiseBuiltin e)).
Proof.
  unfold add_tokens. split; [split|].
  - destruct (json_files fs !! file_path) as [[json_data|e]|]; try done.
    destruct (environ !! app_token) as [secret_app_token|]; [|done].
    destruct (environ !! user_token) as [secret_user_token|]; [|done].
    destruct (_ ← set_secret "token" _ _; _) as [json_data'|] eqn:Hset; [|done].
    destruct (json_open_w_error fs file_path); [done|].
    intros [= <-].
    apply set_secrets_Return in Hset as (d & n & p & -> & Hn & Hp & ->).
    by exists d, n, p, secret_app_token, secret_user_token.
  - intros (d & n & p & sa & su & -> & Hn & Hp & -> & -> & Hw & ->).
    assert ((json_data1 ← set_secret "token" sa (PyDict d);
             set_secret "user" su json_data1)
            = Return (document_with_secrets d n p sa su)) as ->.
    { apply set_secrets_Return. by exists d, n, p. }
    by rewrite Hw.
  - by intros e ->.
Qed.

Lemma example_add_tokens_run :
  add_tokens "config.json" "APPTOKEN" "USERTOKEN" example_environ
    example_json_filesystem
  = ({| json_files :=
          <["config.json" :=
              JsonDocument
                (document_with_secrets
                   {[ "filter" :=
                        PyDict {[ "exclude_patterns" := PyList [PyStr "loft"] ]};
                      "notifications" :=
                        PyDict {[ "pushover" :=
                                    PyDict {[ "device" := PyList [PyStr "phone"] ]} ]} ]}
                   {[ "pushover" := PyDict {[ "device" := PyList [PyStr "phone"] ]} ]}
                   {[ "device" := PyList [PyStr "phone"] ]}
                   "app-token" "user-key")]>
            (json_files example_json_filesystem);
        json_open_w_error := json_open_w_error example_json_filesystem |},
     Finished).
Proof. vm_compute. reflexivity. Defined.

Lemma add_tokens_sets_secrets_witness :
  add_tokens "config.json" "APPTOKEN" "USERTOKEN" example_environ
    example_json_filesystem
  = ((add_tokens "config.json" "APPTOKEN" "USERTOKEN" example_environ
        example_json_filesystem).1, Finished)
  /\ exists d n p secret_app_token secret_user_token,
       json_files example_json_filesystem !! "config.json"
       = Some (JsonDocument (PyDict d))
       /\ d !! "notifications" = Some (PyDict n)
       /\ n !! "pushover" = Some (PyDict p)
       /\ example_environ !! "APPTOKEN" = Some secret_app_token
       /\ example_environ !! "USERTOKEN" = Some secret_user_token
       /\ json_open_w_error example_json_filesystem "config.json" = None
       /\ (add_tokens "config.json" "APPTOKEN" "USERTOKEN" example_environ
             example_json_filesystem).1
          = {| json_files :=
                 <["config.json" :=
                     JsonDocument (document_with_secrets d n p
                                     secret_app_token secret_user_token)]>
                   (json_files example_json_filesystem);
               json_open_w_error := json_open_w_error example_json_filesystem |}.
Proof.
  assert (add_tokens "config.json" "APPTOKEN" "USERTOKEN" example_environ
            example_json_filesystem
          = ((add_tokens "config.json" "APPTOKEN" "USERTOKEN" example_environ
                example_json_filesystem).1, Finished)) as H
    by (rewrite example_add_tokens_run; reflexivity).
  exact (conj H (proj1 (proj1 (add_tokens_sets_secrets _ _ _ _ _ _)) H)).
Defined.

(** X16: [add_tokens] writes nothing unless it finishes: when it raises, the
    files are as they were.  With the file in place it raises its own
    [Exception] when either variable is unset, whatever the document
    holds, and otherwise [KeyError] when the document is an object
    without notifications. *)
Theorem add_tokens_failure_leaves_files (file_path app_token user_token : string)
    (environ : gmap string string) (fs : json_filesystem) :
  ((add_tokens file_path app_token user_token environ fs).2 <> Finished ->
   (add_tokens file_path app_token user_token environ fs).1 = fs)
  /\ (forall json_data,
        json_files fs !! file_path = Some (JsonDocument json_data) ->
        environ !! app_token = None \/ environ !! user_token = None ->
        add_tokens file_path app_token user_token environ fs
        = (fs, RaiseException))
  /\ (forall d secret_app_token secret_user_token,
        json_files fs !! file_path = Some (JsonDocument (PyDict d)) ->
        environ !! app_token = Some secret_app_token ->
        environ !! user_token = Some secret_user_token ->
        d !! "notifications" = None ->
        add_tokens file_path app_token user_token environ fs
        = (fs, RaiseBuiltin KeyError)).
Proof.
  unfold add_tokens. split; [|split].
  - destruct (json_files fs !! file_path) as [[json_data|]|]; try done.
    destruct (environ !! app_token); [|done].
    destruct (environ !! user_token); [|done].
    destruct (_ ← set_secret "token" _ _; _); [|done].
    by destruct (json_open_w_error fs file_path).
  - intros json_data -> [-> | ->]; [done|]. by destruct (environ !! app_token).
  - intros d sa su -> -> -> Hn. unfold set_secret, subscript. simpl.
    by rewrite Hn.
Qed.

Lemma add_tokens_failure_leaves_files_witness :
  json_files example_json_filesystem !! "config.json"
  = Some (JsonDocument example_config_document)
  /\ ({[ "APPTOKEN" := "app-token" ]} : gmap string string) !! "USERTOKEN" = None
  /\ add_tokens "config.json" "APPTOKEN" "USERTOKEN" {[ "APPTOKEN" := "app-token" ]}
       example_json_filesystem
     = (example_json_filesystem, RaiseException).
Proof.
  assert (json_files example_json_filesystem !! "config.json"
          = Some (JsonDocument example_config_document)) as H1 by reflexivity.
  assert (({[ "APPTOKEN" := "app-token" ]} : gmap string string) !! "USERTOKEN"
          = None) as H2 by reflexivity.
  destruct (add_tokens_failure_leaves_files "config.json" "APPTOKEN" "USERTOKEN"
              {[ "APPTOKEN" := "app-token" ]} example_json_filesystem)
    as (_ & Hunset & _).
  exact (conj H1 (conj H2 (Hunset _ H1 (or_intror H2)))).
Defined.

Lemma add_tokens_Finished (file_path app_token user_token : string)
    (environ : gmap string string) (fs fs' : json_filesystem) :
  add_tokens file_path app_token user_token environ fs = (fs', Finished) ->
  exists d n p secret_app_token secret_user_token,
    json_files fs !! file_path = Some (JsonDocument (PyDict d))
    /\ d !! "notifications" = Some (PyDict n)
    /\ n !! "pushover" = Some (PyDict p)
    /\ environ !! app_token = Some secret_app_token
    /\ environ !! user_token = Some secret_user_token
    /\ json_open_w_error fs file_path = None
    /\ fs' = {| json_files :=
                  <[file_path :=
                      JsonDocument (document_with_secrets d n p
                                      secret_app_token secret_user_token)]>
                    (json_files fs);
                json_open_w_error := json_open_w_error fs |}.
Proof.
  unfold add_tokens.
  destruct (json_files fs !! file_path) as [[json_data|]|]; try done.
  destruct (environ !! app_token) as [secret_app_token|]; [|done].
  destruct (environ !! user_token) as [secret_user_token|]; [|done].
  destruct (_ ← set_secret "token" _ _; _) as [json_data'|] eqn:Hset; [|done].
  destruct (json_open_w_error fs file_path); [done|].
  intros [= <-].
  apply set_secrets_Return in Hset as (d & n & p & -> & Hn & Hp & ->).
  by exists d, n, p, secret_app_token, secret_user_token.
Qed.

(** X17: running [add_tokens] again, on the files it left and with the
    environment unchanged, finishes and leaves the files as they are. *)
Theorem add_tokens_idempotent (file_path app_token user_token : string)
    (environ : gmap string string) (fs fs1 : json_filesystem) :
  add_tokens file_path app_token user_token environ fs = (fs1, Finished) ->
  add_tokens file_path app_token user_token environ fs1 = (fs1, Finished).
Proof.
  intros Hrun.
  apply add_tokens_Finished in Hrun
    as (d & n & p & sa & su & Hfile & Hn & Hp & Ha & Hu & Hw & ->).
  unfold add_tokens. simpl. rewrite lookup_insert_eq, Ha, Hu.
  assert ((json_data1 ← set_secret "token" sa (document_with_secrets d n p sa su);
           set_secret "user" su json_data1)
          = Return (document_with_secrets d n p sa su)) as ->.
  { apply set_secrets_Return. unfold document_with_secrets.
    eexists _, _, _. split; [done|].
    split; [apply lookup_insert_eq|]. split; [apply lookup_insert_eq|].
    rewrite !insert_insert_eq. do 3 f_equal.
    rewrite (insert_insert_ne _ "token" "user") by done.
    by rewrite !insert_insert_eq. }
  by rewrite Hw, insert_insert_eq.
Qed.

Lemma add_tokens_idempotent_witness :
  add_tokens "config.json" "APPTOKEN" "USERTOKEN" example_environ
    example_json_filesystem
  = ((add_tokens "config.json" "APPTOKEN" "USERTOKEN" example_environ
        example_json_filesystem).1, Finished)
  /\ add_tokens "config.json" "APPTOKEN" "USERTOKEN" example_environ
       (add_tokens "config.json" "APPTOKEN" "USERTOKEN" example_environ
          example_json_filesystem).1
     = ((add_tokens "config.json" "APPTOKEN" "USERTOKEN" example_environ
           example_json_filesystem).1, Finished).
Proof.
  assert (add_tokens "config.json" "APPTOKEN" "USERTOKEN" example_environ
            example_json_filesystem
          = ((add_tokens "config.json" "APPTOKEN" "USERTOKEN" example_environ
                example_json_filesystem).1, Finished)) as H
    by (rewrite example_add_tokens_run; reflexivity).
  exact (conj H (add_tokens_idempotent _ _ _ _ _ _ H)).
Defined.

(** X18: after [add_tokens] has finished, the pushover settings in the file
    carry the two secrets under token and user; when they hold no key
    besides token, user and device, [PushoverConfig] accepts them, so the
    notifier does not turn them down. *)
Theorem secrets_satisfy_notifier (file_path app_token user_token : string)
    (environ : gmap string string) (fs fs' : json_filesystem) :
  add_tokens file_path app_token user_token environ fs = (fs', Finished) ->
  exists json_data settings secret_app_token secret_user_token,
    json_files fs' !! file_path = Some (JsonDocument json_data)
    /\ pushover_settings json_data = Return (PyDict settings)
    /\ environ !! app_token = Some secret_app_token
    /\ environ !! user_token = Some secret_user_token
    /\ settings !! "token" = Some (PyStr secret_app_token)
    /\ settings !! "user" = Some (PyStr secret_user_token)
    /\ (dom settings ⊆ ({[ "token"; "user"; "device" ]} : gset string) ->
        PushoverConfig_of_kwargs settings
        = Return (PushoverConfig.mk (PyStr secret_app_token)
                    (PyStr secret_user_token)
                    (default (PyList []) (settings !! "device")))).
Proof.
  intros Hrun.
  apply add_tokens_Finished in Hrun
    as (d & n & p & sa & su & Hfile & Hn & Hp & Ha & Hu & Hw & ->).
  exists (document_with_secrets d n p sa su),
    (<["user" := PyStr su]> (<["token" := PyStr sa]> p)), sa, su.
  simpl. split; [apply lookup_insert_eq|].
  split.
  { unfold pushover_settings, document_with_secrets, subscript. simpl.
    rewrite lookup_insert_eq. simpl. by rewrite lookup_insert_eq. }
  split; [done|]. split; [done|].
  split; [by rewrite lookup_insert_ne, lookup_insert_eq|].
  split; [apply lookup_insert_eq|].
  intros Hdom. unfold PushoverConfig_of_kwargs.
  rewrite bool_decide_eq_true_2 by done.
  rewrite (lookup_insert_ne _ "user" "token") by done.
  by rewrite !lookup_insert_eq.
Qed.

Lemma secrets_satisfy_notifier_witness :
  add_tokens "config.json" "APPTOKEN" "USERTOKEN" example_environ
    example_json_filesystem
  = ((add_tokens "config.json" "APPTOKEN" "USERTOKEN" example_environ
        example_json_filesystem).1, Finished)
  /\ exists json_data settings secret_app_token secret_user_token,
       json_files (add_tokens "config.json" "APPTOKEN" "USERTOKEN" example_environ
                     example_json_filesystem).1 !! "config.json"
       = Some (JsonDocument json_data)
       /\ pushover_settings json_data = Return (PyDict settings)
       /\ example_environ !! "APPTOKEN" = Some secret_app_token
       /\ example_environ !! "USERTOKEN" = Some secret_user_token
       /\ settings !! "token" = Some (PyStr secret_app_token)
       /\ settings !! "user" = Some (PyStr secret_user_token)
       /\ (dom settings ⊆ ({[ "token"; "user"; "device" ]} : gset string) ->
           PushoverConfig_of_kwargs settings
           = Return (PushoverConfig.mk (PyStr secret_app_token)
                       (PyStr secret_user_token)
                       (default (PyList []) (settings !! "device")))).
Proof.
  assert (add_tokens "config.json" "APPTOKEN" "USERTOKEN" example_environ
            example_json_filesystem
          = ((add_tokens "config.json" "APPTOKEN" "USERTOKEN" example_environ
                example_json_filesystem).1, Finished)) as H
    by (rewrite example_add_tokens_run; reflexivity).
  exact (conj H (secrets_satisfy_notifier _ _ _ _ _ _ H)).
Defined.
